(** * Currency conversion widget (mindicador.cl): model and properties

    The repository holds two versions of one browser script:
    - [script.js]: form validation, one request to the indicator API, one
      division, formatting of the result fields (module [Script] below);
    - the later version with the three-point trend chart (module [Widget]).

    Numbers are IEEE 754 binary64 values, as JavaScript has them: the Standard
    Library's [spec_float] with [prec = 53] and [emax = 1024].  Strings are
    the UTF-8 byte sequences of the script's strings.  An [async] function is
    split at its suspension point: the part that runs on the event, and the
    part that runs when the awaited request settles. *)

From Stdlib Require Import ZArith List String Ascii Bool Lia Sorted.
From Stdlib Require Import SpecFloat DecimalString.
Import ListNotations.
Open Scope string_scope.
Open Scope Z_scope.

(* ================================================================== *)
(** * The language level: numbers, [parseFloat], property lookup       *)
(* ================================================================== *)

Module JS.

(** ** Numbers *)

Definition Number : Type := spec_float.

Definition prec : Z := 53.
Definition emax : Z := 1024.

Definition NaN : Number := S754_nan.
Definition Infinity : Number := S754_infinity false.
Definition zero : Number := S754_zero false.

(** [x / y], [x <= y], [x < y] on numbers. *)
Definition div (x y : Number) : Number := SFdiv prec emax x y.
Definition leb (x y : Number) : bool := SFleb x y.
Definition ltb (x y : Number) : bool := SFltb x y.

(** The number nearest to an integer (round to nearest, ties to even). *)
Definition of_Z (z : Z) : Number := binary_normalize prec emax z 0 false.

(** ToBoolean on a number: NaN, +0 and -0 are falsy. *)
Definition ToBoolean (x : Number) : bool :=
  match x with
  | S754_nan | S754_zero _ => false
  | S754_infinity _ | S754_finite _ _ _ => true
  end.

(** ** [parseFloat]

    ECMAScript [parseFloat(string)]: leading white space is trimmed, the
    longest prefix that is a [StrDecimalLiteral] is read and the rest of the
    string is ignored; with no such prefix the result is NaN. *)

Definition is_digit (c : ascii) : option Z :=
  let n := Z.of_nat (nat_of_ascii c) in
  if (48 <=? n) && (n <=? 57) then Some (n - 48) else None.

(** WhiteSpace and LineTerminator code points, in UTF-8. *)
Definition ascii_space (c : ascii) : bool :=
  let n := nat_of_ascii c in
  (Nat.eqb n 9 || Nat.eqb n 10 || Nat.eqb n 11 || Nat.eqb n 12
   || Nat.eqb n 13 || Nat.eqb n 32)%bool.

Definition space2 (a b : ascii) : bool :=
  (Nat.eqb (nat_of_ascii a) 194 && Nat.eqb (nat_of_ascii b) 160)%bool.   (* U+00A0 *)

Definition space3 (a b c : ascii) : bool :=
  let x := nat_of_ascii a in
  let y := nat_of_ascii b in
  let z := nat_of_ascii c in
  ((Nat.eqb x 225 && Nat.eqb y 154 && Nat.eqb z 128)                       (* U+1680 *)
   || (Nat.eqb x 226 && Nat.eqb y 128
       && (Nat.leb 128 z && Nat.leb z 138                                   (* U+2000..U+200A *)
           || Nat.eqb z 168 || Nat.eqb z 169 || Nat.eqb z 175))             (* U+2028 U+2029 U+202F *)
   || (Nat.eqb x 226 && Nat.eqb y 129 && Nat.eqb z 159)                    (* U+205F *)
   || (Nat.eqb x 227 && Nat.eqb y 128 && Nat.eqb z 128)                    (* U+3000 *)
   || (Nat.eqb x 239 && Nat.eqb y 187 && Nat.eqb z 191))%bool.             (* U+FEFF *)

Fixpoint TrimStart (s : string) : string :=
  match s with
  | String a r1 =>
      if ascii_space a then TrimStart r1
      else match r1 with
           | String b r2 =>
               if space2 a b then TrimStart r2
               else match r2 with
                    | String c r3 => if space3 a b c then TrimStart r3 else s
                    | EmptyString => s
                    end
           | EmptyString => s
           end
  | EmptyString => s
  end.

(** DecimalDigits: the longest run of digits at the head, and what follows. *)
Fixpoint DecimalDigits (s : string) : list Z * string :=
  match s with
  | String c r =>
      match is_digit c with
      | Some d => let (ds, rest) := DecimalDigits r in (d :: ds, rest)
      | None => ([], s)
      end
  | EmptyString => ([], s)
  end.

Definition digits_value (ds : list Z) : Z :=
  fold_left (fun acc d => 10 * acc + d) ds 0.

(** ExponentPart, when one is present at the head: [e] or [E], an optional
    sign and at least one digit.  Without one the exponent is 0 and nothing
    of the string is consumed. *)
Definition ExponentPart (s : string) : Z :=
  match s with
  | String c r =>
      if (Ascii.eqb c "e" || Ascii.eqb c "E")%bool then
        match r with
        | String sg r' =>
            if Ascii.eqb sg "-" then
              match fst (DecimalDigits r') with
              | [] => 0
              | ds => - digits_value ds
              end
            else if Ascii.eqb sg "+" then digits_value (fst (DecimalDigits r'))
            else digits_value (fst (DecimalDigits r))
        | EmptyString => 0
        end
      else 0
  | EmptyString => 0
  end.

(** A recognised unsigned literal: [Infinity], or the digits before and after
    the point with the decimal exponent. *)
Inductive Literal : Type :=
| LitInfinity
| LitDecimal (int_part frac_part : list Z) (exponent : Z).

Definition StrUnsignedDecimalLiteral (s : string) : option Literal :=
  if prefix "Infinity" s then Some LitInfinity
  else
    let (ip, r1) := DecimalDigits s in
    match r1 with
    | String c r2 =>
        if Ascii.eqb c "." then
          let (fp, r3) := DecimalDigits r2 in
          match ip, fp with
          | [], [] => None
          | _, [] =>
              (* "12." is a literal; an exponent may follow the point *)
              Some (LitDecimal ip [] (ExponentPart r3))
          | _, _ => Some (LitDecimal ip fp (ExponentPart r3))
          end
        else
          match ip with
          | [] => None
          | _ => Some (LitDecimal ip [] (ExponentPart r1))
          end
    | EmptyString =>
        match ip with
        | [] => None
        | _ => Some (LitDecimal ip [] 0)
        end
    end.

(** The sign, then the unsigned literal. *)
Definition StrDecimalLiteral (s : string) : option (bool * Literal) :=
  match s with
  | String c r =>
      if Ascii.eqb c "-" then
        option_map (fun l => (true, l)) (StrUnsignedDecimalLiteral r)
      else if Ascii.eqb c "+" then
        option_map (fun l => (false, l)) (StrUnsignedDecimalLiteral r)
      else option_map (fun l => (false, l)) (StrUnsignedDecimalLiteral s)
  | EmptyString => None
  end.

(** The binary64 value nearest to [m * 10 ^ e10], for [m >= 0]. *)
Definition round_decimal (neg : bool) (m e10 : Z) : Number :=
  match m with
  | Zpos p =>
      if 0 <=? e10 then
        binary_normalize prec emax (if neg then - (m * 10 ^ e10) else m * 10 ^ e10) 0 neg
      else
        SFdiv prec emax (S754_finite neg p 0)
                        (S754_finite false (Z.to_pos (10 ^ (- e10))) 0)
  | _ => S754_zero neg
  end.

Definition literal_value (neg : bool) (l : Literal) : Number :=
  match l with
  | LitInfinity => S754_infinity neg
  | LitDecimal ip fp e =>
      round_decimal neg (digits_value (ip ++ fp)%list) (e - Z.of_nat (List.length fp))
  end.

Definition parseFloat (s : string) : Number :=
  match StrDecimalLiteral (TrimStart s) with
  | Some (neg, l) => literal_value neg l
  | None => NaN
  end.

(** ** Property lookup on an object literal

    The script's tables ([currencyNames], [symbols]) are object literals read
    with [table[key]].  Such a read finds the literal's own property, and
    otherwise follows the prototype chain to [Object.prototype]. *)

Inductive Value : Type :=
| Undefined
| Str (s : string)
| Inherited (key : string).   (* the member [key] of Object.prototype *)

Definition ObjectPrototype : list string :=
  [ "constructor"; "hasOwnProperty"; "isPrototypeOf"; "propertyIsEnumerable";
    "toLocaleString"; "toString"; "valueOf"; "__proto__";
    "__defineGetter__"; "__defineSetter__"; "__lookupGetter__"; "__lookupSetter__" ].

(** Own property of a literal: of two entries with one key the later wins. *)
Fixpoint GetOwn (o : list (string * string)) (key : string) : option string :=
  match o with
  | [] => None
  | (k, v) :: rest =>
      match GetOwn rest key with
      | Some w => Some w
      | None => if String.eqb k key then Some v else None
      end
  end.

Definition Get (o : list (string * string)) (key : string) : Value :=
  match GetOwn o key with
  | Some v => Str v
  | None => if existsb (String.eqb key) ObjectPrototype then Inherited key else Undefined
  end.

Definition Truthy (v : Value) : bool :=
  match v with
  | Undefined => false
  | Str s => negb (String.eqb s "")
  | Inherited _ => true
  end.

(** [a || b] *)
Definition logical_or (a b : Value) : Value := if Truthy a then a else b.

End JS.

(* ================================================================== *)
(** * The platform: library functions the script calls                 *)
(* ================================================================== *)

(** [Intl.NumberFormat], [Date.prototype.toLocaleDateString],
    [String.prototype.toUpperCase] and the text of a built-in object are the
    browser's.  The script is modelled over any implementation of them. *)
Class Platform : Type := {
  (** [new Intl.NumberFormat('es-CL', { minimumFractionDigits: lo,
      maximumFractionDigits: hi }).format(x)] *)
  NumberFormat_es_CL : nat -> nat -> JS.Number -> string;
  (** [new Date(fecha).toLocaleDateString('es-CL')] *)
  toLocaleDateString_es_CL : string -> string;
  (** [new Date(fecha).toLocaleDateString('es-CL',
      { weekday: 'short', month: 'short', day: 'numeric' })] *)
  toLocaleDateString_short : string -> string;
  (** [s.toUpperCase()] *)
  toUpperCase : string -> string;
  (** the string a member of Object.prototype converts to *)
  builtin_text : string -> string
}.

(** ToString of a value, as a template literal applies it. *)
Definition ToString `{Platform} (v : JS.Value) : string :=
  match v with
  | JS.Undefined => "undefined"
  | JS.Str s => s
  | JS.Inherited key => builtin_text key
  end.

(** What [node.textContent = v] leaves as the node's text: [undefined] is
    converted to null, which empties the node. *)
Definition textContent `{Platform} (v : JS.Value) : string :=
  match v with
  | JS.Undefined => ""
  | _ => ToString v
  end.

(* ================================================================== *)
(** * The indicator API and the page                                   *)
(* ================================================================== *)

(** One element of the [serie] array of a response body. *)
Record Observation : Type := { fecha : string; valor : JS.Number }.

(** The body of a response: not JSON at all ([response.json()] rejects), or
    an object whose [serie] field is absent or an array of observations
    [{ fecha, valor }], as the API answers.  Bodies of other shapes are
    outside the API's contract and are not modelled. *)
Inductive Body : Type :=
| NotJson
| Json (serie : option (list Observation)).

(** How the awaited [fetch] settles. *)
Inductive Settled : Type :=
| Rejected
| Response (status : nat) (body : Body).

(** [response.ok]: the status is in the range 200-299. *)
Definition ok (status : nat) : bool := (Nat.leb 200 status && Nat.leb status 299)%bool.

(** What the [try] block of [convertCurrency] can throw. *)
Inductive Thrown : Type :=
| ApiError (status : nat)      (* Error(`Error en la API: ${response.status}`) *)
| NoData                       (* Error('No se encontraron datos ...') *)
| FetchFailed                  (* fetch rejected *)
| BodySyntaxError              (* response.json() rejected *)
| ChartError.                  (* the chart could not be constructed *)

(** The elements both versions of the script look up by id.  A [_hidden]
    field tells whether the element's class list holds ['hidden']. *)
Record Dom : Type := {
  loadingDiv_hidden : bool;
  convertBtn_disabled : bool;
  resultDiv_hidden : bool;
  errorDiv_hidden : bool;
  errorDiv_p : string;
  amountInput_value : string;
  currencySelect_value : string;
  originalAmountSpan : string;
  targetCurrencySpan : string;
  exchangeRateSpan : string;
  convertedAmountSpan : string;
  updateDateSpan : string
}.

Definition set_loading (hidden disabled : bool) (d : Dom) : Dom :=
  {| loadingDiv_hidden := hidden;
     convertBtn_disabled := disabled;
     resultDiv_hidden := resultDiv_hidden d;
     errorDiv_hidden := errorDiv_hidden d;
     errorDiv_p := errorDiv_p d;
     amountInput_value := amountInput_value d;
     currencySelect_value := currencySelect_value d;
     originalAmountSpan := originalAmountSpan d;
     targetCurrencySpan := targetCurrencySpan d;
     exchangeRateSpan := exchangeRateSpan d;
     convertedAmountSpan := convertedAmountSpan d;
     updateDateSpan := updateDateSpan d |}.

Definition set_resultDiv_hidden (hidden : bool) (d : Dom) : Dom :=
  {| loadingDiv_hidden := loadingDiv_hidden d;
     convertBtn_disabled := convertBtn_disabled d;
     resultDiv_hidden := hidden;
     errorDiv_hidden := errorDiv_hidden d;
     errorDiv_p := errorDiv_p d;
     amountInput_value := amountInput_value d;
     currencySelect_value := currencySelect_value d;
     originalAmountSpan := originalAmountSpan d;
     targetCurrencySpan := targetCurrencySpan d;
     exchangeRateSpan := exchangeRateSpan d;
     convertedAmountSpan := convertedAmountSpan d;
     updateDateSpan := updateDateSpan d |}.

Definition set_errorDiv_hidden (hidden : bool) (d : Dom) : Dom :=
  {| loadingDiv_hidden := loadingDiv_hidden d;
     convertBtn_disabled := convertBtn_disabled d;
     resultDiv_hidden := resultDiv_hidden d;
     errorDiv_hidden := hidden;
     errorDiv_p := errorDiv_p d;
     amountInput_value := amountInput_value d;
     currencySelect_value := currencySelect_value d;
     originalAmountSpan := originalAmountSpan d;
     targetCurrencySpan := targetCurrencySpan d;
     exchangeRateSpan := exchangeRateSpan d;
     convertedAmountSpan := convertedAmountSpan d;
     updateDateSpan := updateDateSpan d |}.

Definition set_errorDiv_p (message : string) (d : Dom) : Dom :=
  {| loadingDiv_hidden := loadingDiv_hidden d;
     convertBtn_disabled := convertBtn_disabled d;
     resultDiv_hidden := resultDiv_hidden d;
     errorDiv_hidden := errorDiv_hidden d;
     errorDiv_p := message;
     amountInput_value := amountInput_value d;
     currencySelect_value := currencySelect_value d;
     originalAmountSpan := originalAmountSpan d;
     targetCurrencySpan := targetCurrencySpan d;
     exchangeRateSpan := exchangeRateSpan d;
     convertedAmountSpan := convertedAmountSpan d;
     updateDateSpan := updateDateSpan d |}.

Definition set_amountInput_value (v : string) (d : Dom) : Dom :=
  {| loadingDiv_hidden := loadingDiv_hidden d;
     convertBtn_disabled := convertBtn_disabled d;
     resultDiv_hidden := resultDiv_hidden d;
     errorDiv_hidden := errorDiv_hidden d;
     errorDiv_p := errorDiv_p d;
     amountInput_value := v;
     currencySelect_value := currencySelect_value d;
     originalAmountSpan := originalAmountSpan d;
     targetCurrencySpan := targetCurrencySpan d;
     exchangeRateSpan := exchangeRateSpan d;
     convertedAmountSpan := convertedAmountSpan d;
     updateDateSpan := updateDateSpan d |}.

Definition set_currencySelect_value (v : string) (d : Dom) : Dom :=
  {| loadingDiv_hidden := loadingDiv_hidden d;
     convertBtn_disabled := convertBtn_disabled d;
     resultDiv_hidden := resultDiv_hidden d;
     errorDiv_hidden := errorDiv_hidden d;
     errorDiv_p := errorDiv_p d;
     amountInput_value := amountInput_value d;
     currencySelect_value := v;
     originalAmountSpan := originalAmountSpan d;
     targetCurrencySpan := targetCurrencySpan d;
     exchangeRateSpan := exchangeRateSpan d;
     convertedAmountSpan := convertedAmountSpan d;
     updateDateSpan := updateDateSpan d |}.

(** The five [textContent] assignments of [displayResult]. *)
Definition set_spans (original target rate converted date : string) (d : Dom) : Dom :=
  {| loadingDiv_hidden := loadingDiv_hidden d;
     convertBtn_disabled := convertBtn_disabled d;
     resultDiv_hidden := resultDiv_hidden d;
     errorDiv_hidden := errorDiv_hidden d;
     errorDiv_p := errorDiv_p d;
     amountInput_value := amountInput_value d;
     currencySelect_value := currencySelect_value d;
     originalAmountSpan := original;
     targetCurrencySpan := target;
     exchangeRateSpan := rate;
     convertedAmountSpan := converted;
     updateDateSpan := date |}.

(** Modelled from the spec: the markup is not among the sources.  The page
    as it is loaded is the IDLE view of the spec: every region hidden, the
    submit control enabled, the form and the result fields empty. *)
Definition initial_dom : Dom :=
  {| loadingDiv_hidden := true;
     convertBtn_disabled := false;
     resultDiv_hidden := true;
     errorDiv_hidden := true;
     errorDiv_p := "";
     amountInput_value := "";
     currencySelect_value := "";
     originalAmountSpan := "";
     targetCurrencySpan := "";
     exchangeRateSpan := "";
     convertedAmountSpan := "";
     updateDateSpan := "" |}.

(** Removal of the [k]-th element of a list. *)
Fixpoint remove_nth {A : Type} (k : nat) (l : list A) : list A :=
  match l, k with
  | [], _ => []
  | _ :: r, O => r
  | x :: r, S k' => x :: remove_nth k' r
  end.

(* ================================================================== *)
(** * [script.js]: the converter without the chart                     *)
(* ================================================================== *)

Module Script.

(** The page, the suspended calls of [convertCurrency] (each with its
    [amount] and [currency]), the URLs requested so far and what was written
    with [console.error]. *)
Record State : Type := {
  dom : Dom;
  pending : list (JS.Number * string);
  fetched : list string;
  console : list Thrown
}.

Definition with_dom (f : Dom -> Dom) (st : State) : State :=
  {| dom := f (dom st); pending := pending st;
     fetched := fetched st; console := console st |}.

Definition initial : State :=
  {| dom := initial_dom; pending := []; fetched := []; console := [] |}.

Inductive Event : Type :=
| SubmitForm                               (* 'submit' on converterForm *)
| Settle (k : nat) (r : Settled)           (* the k-th pending request settles *)
| AmountInput (v : string)                 (* 'input' on amountInput *)
| CurrencyChange (v : string)              (* 'change' on currencySelect *)
| ClearForm.                               (* clearForm(), left to the markup to call *)

Section Code.
Context {P : Platform}.

Definition API_URL : string := "https://mindicador.cl/api".

Definition currencyNames : list (string * string) :=
  [ ("dolar", "Dólar Americano (USD)");
    ("euro", "Euro (EUR)");
    ("uf", "Unidad de Fomento (UF)");
    ("utm", "Unidad Tributaria Mensual (UTM)");
    ("dolar_intercambio", "Dólar Intercambio") ].

Definition showLoading : State -> State := with_dom (set_loading false true).
Definition hideLoading : State -> State := with_dom (set_loading true false).
Definition showResult : State -> State := with_dom (set_resultDiv_hidden false).
Definition hideResult : State -> State := with_dom (set_resultDiv_hidden true).
Definition showError (message : string) : State -> State :=
  with_dom (fun d => set_errorDiv_hidden false (set_errorDiv_p message d)).
Definition hideError : State -> State := with_dom (set_errorDiv_hidden true).

(** [formatNumber(number, decimals = 0)]; a call without the second argument
    is written with [0]. *)
Definition formatNumber (number : JS.Number) (decimals : nat) : string :=
  NumberFormat_es_CL decimals decimals number.

Definition getCurrencySymbol (currency : string) : JS.Value :=
  let symbols :=
    [ ("dolar", "USD"); ("dolar_intercambio", "USD"); ("euro", "EUR");
      ("uf", "UF"); ("utm", "UTM") ] in
  JS.logical_or (JS.Get symbols currency) (JS.Str (toUpperCase currency)).

Definition formatConvertedAmount (amount : JS.Number) (currency : string) : string :=
  let symbol := getCurrencySymbol currency in
  if (String.eqb currency "uf" || String.eqb currency "utm")%bool then
    formatNumber amount 4 ++ " " ++ ToString symbol
  else
    ToString symbol ++ " " ++ formatNumber amount 2.

Definition calculateConversion (amount exchangeRate : JS.Number) (currency : string)
  : JS.Number :=
  JS.div amount exchangeRate.

Definition displayResult (originalAmount : JS.Number) (currency : string)
    (exchangeRate convertedAmount : JS.Number) (updateDate : string)
    (st : State) : State :=
  showResult
    (with_dom (set_spans (formatNumber originalAmount 0)
                         (textContent (JS.Get currencyNames currency))
                         (formatNumber exchangeRate 0)
                         (formatConvertedAmount convertedAmount currency)
                         updateDate) st).

(** [convertCurrency] up to its first [await]: the regions are reset and the
    request is issued; the call is then suspended. *)
Definition convertCurrency_begin (amount : JS.Number) (currency : string)
    (st : State) : State :=
  let st := hideResult (hideError (showLoading st)) in
  {| dom := dom st;
     pending := pending st ++ [(amount, currency)];
     fetched := fetched st ++ [API_URL ++ "/" ++ currency];
     console := console st |}.

(** The [try] block from the point where [fetch] has settled: the state it
    ends in, or what it throws and the state at the throw. *)
Definition convertCurrency_try (amount : JS.Number) (currency : string)
    (r : Settled) (st : State) : State + Thrown * State :=
  match r with
  | Rejected => inr (FetchFailed, st)
  | Response status body =>
      if negb (ok status) then inr (ApiError status, st)
      else
        match body with
        | NotJson => inr (BodySyntaxError, st)
        | Json None => inr (NoData, st)
        | Json (Some []) => inr (NoData, st)
        | Json (Some (latestValue :: _)) =>
            let exchangeRate := valor latestValue in
            let updateDate := toLocaleDateString_es_CL (fecha latestValue) in
            let convertedAmount := calculateConversion amount exchangeRate currency in
            inl (displayResult amount currency exchangeRate convertedAmount updateDate st)
        end
  end.

Definition console_error (e : Thrown) (st : State) : State :=
  {| dom := dom st; pending := pending st;
     fetched := fetched st; console := console st ++ [e] |}.

(** The rest of [convertCurrency]: [try], [catch] and [finally]. *)
Definition convertCurrency_resume (amount : JS.Number) (currency : string)
    (r : Settled) (st : State) : State :=
  let st :=
    match convertCurrency_try amount currency r st with
    | inl st' => st'
    | inr (error, st') =>
        showError "Error al obtener los datos de conversión. Verifica tu conexión a internet e intenta nuevamente."
                  (console_error error st')
    end in
  hideLoading st.

(** The whole call, for a request that settles with [r]. *)

(** [handleConversion] up to the [await] of [convertCurrency]. *)
Definition handleConversion (st : State) : State :=
  let amount := JS.parseFloat (amountInput_value (dom st)) in
  let selectedCurrency := currencySelect_value (dom st) in
  if (negb (JS.ToBoolean amount) || JS.leb amount JS.zero)%bool then
    showError "Por favor, ingresa un monto válido mayor a 0." st
  else if String.eqb selectedCurrency "" then
    showError "Por favor, selecciona una moneda de destino." st
  else
    convertCurrency_begin amount selectedCurrency st.

Definition clearForm (st : State) : State :=
  hideError (hideResult
    (with_dom (fun d => set_currencySelect_value "" (set_amountInput_value "" d)) st)).

(** The request [k] settles: its suspended call runs to the end. *)
Definition settle (k : nat) (r : Settled) (st : State) : State :=
  match nth_error (pending st) k with
  | Some (amount, currency) =>
      convertCurrency_resume amount currency r
        {| dom := dom st; pending := remove_nth k (pending st);
           fetched := fetched st; console := console st |}
  | None => st
  end.

(** The whole call, for a request that settles with [r] before any other
    event: the request just issued is the last of the pending ones. *)
Definition convertCurrency (amount : JS.Number) (currency : string)
    (r : Settled) (st : State) : State :=
  settle (List.length (pending st)) r (convertCurrency_begin amount currency st).

(** One event of the page.  The form is submitted through its submit
    control: while the control is disabled no 'submit' event is delivered. *)
Definition step (st : State) (e : Event) : State :=
  match e with
  | SubmitForm => if convertBtn_disabled (dom st) then st else handleConversion st
  | Settle k r => settle k r st
  | AmountInput v => hideError (with_dom (set_amountInput_value v) st)
  | CurrencyChange v => hideError (with_dom (set_currencySelect_value v) st)
  | ClearForm => clearForm st
  end.

Definition run (es : list Event) : State := fold_left step es initial.

End Code.
End Script.

(* ================================================================== *)
(** * The converter with the trend chart                               *)
(* ================================================================== *)

Module Widget.

(** A chart made with [new Chart(ctx, config)]: the labels and the one
    dataset of [config.data].  The styling options of [config] (colours,
    fonts, title, axes) are handed to the charting library unchanged and are
    left out. *)
Record Chart : Type := {
  chart_id : nat;
  chart_labels : list string;
  dataset_label : string;
  dataset_data : list JS.Number
}.

(** The page with its chart region, the script's variable [currencyChart],
    the charts of the library that are alive (made and not destroyed), the
    number of charts made so far, and the rest as in [Script.State]. *)
Record State : Type := {
  dom : Dom;
  chartSection_hidden : bool;
  currencyChart : option Chart;
  alive : list Chart;
  made : nat;
  pending : list (JS.Number * string);
  fetched : list string;
  console : list Thrown
}.

Definition with_dom (f : Dom -> Dom) (st : State) : State :=
  {| dom := f (dom st);
     chartSection_hidden := chartSection_hidden st;
     currencyChart := currencyChart st;
     alive := alive st;
     made := made st;
     pending := pending st;
     fetched := fetched st;
     console := console st |}.

Definition set_chartSection_hidden (hidden : bool) (st : State) : State :=
  {| dom := dom st;
     chartSection_hidden := hidden;
     currencyChart := currencyChart st;
     alive := alive st;
     made := made st;
     pending := pending st;
     fetched := fetched st;
     console := console st |}.

(** [currencyChart = c], with the library's charts becoming [cs]. *)
Definition set_charts (c : option Chart) (cs : list Chart) (n : nat) (st : State) : State :=
  {| dom := dom st;
     chartSection_hidden := chartSection_hidden st;
     currencyChart := c;
     alive := cs;
     made := n;
     pending := pending st;
     fetched := fetched st;
     console := console st |}.

Definition set_pending (ps : list (JS.Number * string)) (st : State) : State :=
  {| dom := dom st;
     chartSection_hidden := chartSection_hidden st;
     currencyChart := currencyChart st;
     alive := alive st;
     made := made st;
     pending := ps;
     fetched := fetched st;
     console := console st |}.

(** [chart.destroy()]: the chart leaves the library's live charts; on a
    chart already destroyed nothing changes. *)
Definition destroy (c : Chart) (st : State) : State :=
  set_charts (currencyChart st)
             (filter (fun x => negb (Nat.eqb (chart_id x) (chart_id c))) (alive st))
             (made st) st.

Definition initial : State :=
  {| dom := initial_dom;
     chartSection_hidden := true;
     currencyChart := None;
     alive := [];
     made := 0;
     pending := [];
     fetched := [];
     console := [] |}.

Inductive Event : Type :=
| SubmitForm                               (* 'submit' on converterForm *)
| Settle (k : nat) (r : Settled) (chart_throws : bool)
                                           (* the k-th pending request settles;
                                              [chart_throws]: the library fails
                                              to construct the chart *)
| AmountInput (v : string)                 (* 'input' on amountInput *)
| CurrencyChange (v : string)              (* 'change' on currencySelect *)
| ClearForm.                               (* clearForm(), left to the markup to call *)

Section Code.
Context {P : Platform}.

Definition API_URL : string := "https://mindicador.cl/api".

Definition currencyNames : list (string * string) :=
  [ ("dolar", "Dólar Americano (USD)");
    ("euro", "Euro (EUR)");
    ("uf", "Unidad de Fomento (UF)");
    ("utm", "Unidad Tributaria Mensual (UTM)");
    ("dolar_intercambio", "Dólar Intercambio") ].

Definition showLoading : State -> State := with_dom (set_loading false true).
Definition hideLoading : State -> State := with_dom (set_loading true false).
Definition showResult : State -> State := with_dom (set_resultDiv_hidden false).
Definition hideResult : State -> State := with_dom (set_resultDiv_hidden true).
Definition showError (message : string) : State -> State :=
  with_dom (fun d => set_errorDiv_hidden false (set_errorDiv_p message d)).
Definition hideError : State -> State := with_dom (set_errorDiv_hidden true).
Definition showChart : State -> State := set_chartSection_hidden false.
Definition hideChart : State -> State := set_chartSection_hidden true.

(** [formatNumber(number, decimals = 0)]; a call without the second argument
    is written with [0]. *)
Definition formatNumber (number : JS.Number) (decimals : nat) : string :=
  NumberFormat_es_CL decimals decimals number.

Definition getCurrencySymbol (currency : string) : JS.Value :=
  let symbols :=
    [ ("dolar", "USD"); ("dolar_intercambio", "USD"); ("euro", "EUR");
      ("uf", "UF"); ("utm", "UTM") ] in
  JS.logical_or (JS.Get symbols currency) (JS.Str (toUpperCase currency)).

Definition formatConvertedAmount (amount : JS.Number) (currency : string) : string :=
  let symbol := getCurrencySymbol currency in
  if (String.eqb currency "uf" || String.eqb currency "utm")%bool then
    formatNumber amount 4 ++ " " ++ ToString symbol
  else
    ToString symbol ++ " " ++ formatNumber amount 2.

Definition calculateConversion (amount exchangeRate : JS.Number) (currency : string)
  : JS.Number :=
  JS.div amount exchangeRate.

Definition displayResult (originalAmount : JS.Number) (currency : string)
    (exchangeRate convertedAmount : JS.Number) (updateDate : string)
    (st : State) : State :=
  showResult
    (with_dom (set_spans (formatNumber originalAmount 0)
                         (textContent (JS.Get currencyNames currency))
                         (formatNumber exchangeRate 0)
                         (formatConvertedAmount convertedAmount currency)
                         updateDate) st).

(** [const last3Days = serie.slice(0, 3).reverse()] *)
Definition last3Days (serie : list Observation) : list Observation :=
  rev (firstn 3 serie).

(** The points a chart shows: each label with its value. *)
Definition chart_points (c : Chart) : list (string * JS.Number) :=
  combine (chart_labels c) (dataset_data c).

(** [new Chart(ctx, { type: 'line', data: { labels, datasets: [{ label,
    data, ... }] }, options })]: the [n]-th chart the library makes. *)
Definition new_Chart (n : nat) (labels : list string) (label : string)
    (data : list JS.Number) : Chart :=
  {| chart_id := n; chart_labels := labels; dataset_label := label; dataset_data := data |}.

(** [createChart(currency, serie)].  The canvas lookup and [new Chart] are the part that
    can throw ([chart_throws]); they come after the old chart is destroyed
    and before [currencyChart] is assigned. *)
Definition createChart (currency : string) (serie : list Observation)
    (chart_throws : bool) (st : State) : State + Thrown * State :=
  let last3Days := last3Days serie in
  let labels := map (fun item => toLocaleDateString_short (fecha item)) last3Days in
  let values := map (fun item => valor item) last3Days in
  let st :=
    match currencyChart st with
    | Some c => destroy c st
    | None => st
    end in
  if chart_throws then inr (ChartError, st)
  else
    let chart :=
      new_Chart (made st) labels
                ("Valor en CLP - " ++ ToString (JS.Get currencyNames currency))
                values in
    inl (showChart (set_charts (Some chart) (chart :: alive st) (S (made st)) st)).

(** [convertCurrency] up to its first [await]: the regions are reset and the
    request is issued; the call is then suspended. *)
Definition convertCurrency_begin (amount : JS.Number) (currency : string)
    (st : State) : State :=
  let st := hideChart (hideResult (hideError (showLoading st))) in
  {| dom := dom st;
     chartSection_hidden := chartSection_hidden st;
     currencyChart := currencyChart st;
     alive := alive st;
     made := made st;
     pending := pending st ++ [(amount, currency)];
     fetched := fetched st ++ [API_URL ++ "/" ++ currency];
     console := console st |}.

(** The [try] block from the point where [fetch] has settled: the state it
    ends in, or what it throws and the state at the throw. *)
Definition convertCurrency_try (amount : JS.Number) (currency : string)
    (r : Settled) (chart_throws : bool) (st : State) : State + Thrown * State :=
  match r with
  | Rejected => inr (FetchFailed, st)
  | Response status body =>
      if negb (ok status) then inr (ApiError status, st)
      else
        match body with
        | NotJson => inr (BodySyntaxError, st)
        | Json None => inr (NoData, st)
        | Json (Some []) => inr (NoData, st)
        | Json (Some ((latestValue :: _) as serie)) =>
            let exchangeRate := valor latestValue in
            let updateDate := toLocaleDateString_es_CL (fecha latestValue) in
            let convertedAmount := calculateConversion amount exchangeRate currency in
            let st :=
              displayResult amount currency exchangeRate convertedAmount updateDate st in
            createChart currency serie chart_throws st
        end
  end.

Definition console_error (e : Thrown) (st : State) : State :=
  {| dom := dom st;
     chartSection_hidden := chartSection_hidden st;
     currencyChart := currencyChart st;
     alive := alive st;
     made := made st;
     pending := pending st;
     fetched := fetched st;
     console := console st ++ [e] |}.

(** The rest of [convertCurrency]: [try], [catch] and [finally]. *)
Definition convertCurrency_resume (amount : JS.Number) (currency : string)
    (r : Settled) (chart_throws : bool) (st : State) : State :=
  let st :=
    match convertCurrency_try amount currency r chart_throws st with
    | inl st' => st'
    | inr (error, st') =>
        showError "Error al obtener los datos de conversión. Verifica tu conexión a internet e intenta nuevamente."
                  (console_error error st')
    end in
  hideLoading st.

(** [handleConversion] up to the [await] of [convertCurrency]. *)
Definition handleConversion (st : State) : State :=
  let amount := JS.parseFloat (amountInput_value (dom st)) in
  let selectedCurrency := currencySelect_value (dom st) in
  if (negb (JS.ToBoolean amount) || JS.leb amount JS.zero)%bool then
    showError "Por favor, ingresa un monto válido mayor a 0." st
  else if String.eqb selectedCurrency "" then
    showError "Por favor, selecciona una moneda de destino." st
  else
    convertCurrency_begin amount selectedCurrency st.

(** [if (currencyChart) { currencyChart.destroy(); currencyChart = null; }] *)
Definition dispose_chart (st : State) : State :=
  match currencyChart st with
  | Some c => let st := destroy c st in set_charts None (alive st) (made st) st
  | None => st
  end.

Definition clearForm (st : State) : State :=
  dispose_chart (hideChart (hideError (hideResult
    (with_dom (fun d => set_currencySelect_value "" (set_amountInput_value "" d)) st)))).

(** The listener of 'change' on [currencySelect]. *)
Definition currencySelect_change (st : State) : State :=
  dispose_chart (hideChart (hideError st)).

(** The request [k] settles: its suspended call runs to the end. *)
Definition settle (k : nat) (r : Settled) (chart_throws : bool) (st : State) : State :=
  match nth_error (pending st) k with
  | Some (amount, currency) =>
      convertCurrency_resume amount currency r chart_throws
        (set_pending (remove_nth k (pending st)) st)
  | None => st
  end.

(** The whole call, for a request that settles with [r] before any other
    event: the request just issued is the last of the pending ones. *)
Definition convertCurrency (amount : JS.Number) (currency : string)
    (r : Settled) (chart_throws : bool) (st : State) : State :=
  settle (List.length (pending st)) r chart_throws
         (convertCurrency_begin amount currency st).

(** One event of the page.  The form is submitted through its submit
    control: while the control is disabled no 'submit' event is delivered. *)
Definition step (st : State) (e : Event) : State :=
  match e with
  | SubmitForm => if convertBtn_disabled (dom st) then st else handleConversion st
  | Settle k r chart_throws => settle k r chart_throws st
  | AmountInput v => hideError (with_dom (set_amountInput_value v) st)
  | CurrencyChange v => currencySelect_change (with_dom (set_currencySelect_value v) st)
  | ClearForm => clearForm st
  end.

Definition run (es : list Event) : State := fold_left step es initial.

(** The states the page can be in. *)
Inductive reachable : State -> Prop :=
| reachable_initial : reachable initial
| reachable_step : forall st e, reachable st -> reachable (step st e).

(** ** The colours and the configuration of the chart *)

(** What [colorMap[currency] || { border: '#666', ... }] evaluates to: an
    object with the two colours, or the member of Object.prototype the key
    names (a truthy value, so the [||] keeps it). *)
Inductive Colors : Type :=
| Palette (border background : string)
| Member (key : string).

(** Own property of an object literal whose values are objects. *)
Fixpoint own_property {A : Type} (o : list (string * A)) (key : string) : option A :=
  match o with
  | [] => None
  | (k, v) :: rest =>
      match own_property rest key with
      | Some w => Some w
      | None => if String.eqb k key then Some v else None
      end
  end.

Definition getCurrencyColors (currency : string) : Colors :=
  let colorMap :=
    [ ("dolar", Palette "#2e7d32" "rgba(76, 175, 80, 0.1)");
      ("dolar_intercambio", Palette "#1976d2" "rgba(33, 150, 243, 0.1)");
      ("euro", Palette "#7b1fa2" "rgba(156, 39, 176, 0.1)");
      ("uf", Palette "#d32f2f" "rgba(244, 67, 54, 0.1)");
      ("utm", Palette "#f57c00" "rgba(255, 152, 0, 0.1)") ] in
  match own_property colorMap currency with
  | Some colors => colors
  | None =>
      if existsb (String.eqb currency) JS.ObjectPrototype then Member currency
      else Palette "#666" "rgba(102, 102, 102, 0.1)"
  end.

(** [colors.border] and [colors.background]; no member of Object.prototype
    has either property. *)
Definition border (colors : Colors) : JS.Value :=
  match colors with
  | Palette b _ => JS.Str b
  | Member _ => JS.Undefined
  end.

Definition background (colors : Colors) : JS.Value :=
  match colors with
  | Palette _ g => JS.Str g
  | Member _ => JS.Undefined
  end.

(** The configuration [createChart] hands to [new Chart]: the data, the
    colours, the title and the tick labels of the value axis.  Widths, radii,
    fonts and the legend are constants of the script and are left out. *)
Record Config : Type := {
  config_type : string;
  config_labels : list string;
  config_dataset_label : string;
  config_data : list JS.Number;
  borderColor : JS.Value;
  backgroundColor : JS.Value;
  pointBackgroundColor : JS.Value;
  hoverBackgroundColor : JS.Value;
  title_text : string;
  y_title_text : string;
  y_ticks_callback : JS.Number -> string
}.

Definition chart_config (currency : string) (serie : list Observation) : Config :=
  let last3Days := last3Days serie in
  let labels := map (fun item => toLocaleDateString_short (fecha item)) last3Days in
  let values := map (fun item => valor item) last3Days in
  let colors := getCurrencyColors currency in
  {| config_type := "line";
     config_labels := labels;
     config_dataset_label :=
       "Valor en CLP - " ++ ToString (JS.Get currencyNames currency);
     config_data := values;
     borderColor := border colors;
     backgroundColor := background colors;
     pointBackgroundColor := border colors;
     hoverBackgroundColor := border colors;
     title_text :=
       "Evolución de " ++ ToString (JS.Get currencyNames currency) ++ " - Últimos 3 días";
     y_title_text := "Valor en CLP";
     y_ticks_callback := fun value => formatNumber value 2 |}.

End Code.
End Widget.

Arguments Widget.new_Chart : simpl never.
Arguments Widget.last3Days : simpl never.

(* ================================================================== *)
(** * A reference platform                                             *)
(* ================================================================== *)

(** One implementation of [Platform], to run the script on examples: numbers
    in the es-CL style (point for thousands, comma for decimals, half-way
    cases rounded away from zero), dates read off the first ten characters
    of an ISO date, ASCII upper-casing.  The properties below hold over every
    platform; none depends on this one. *)
Module Reference.

Definition digits (z : Z) : string := NilEmpty.string_of_uint (N.to_uint (Z.to_N z)).

(** The integer nearest to [m * 2^e * 10^d]. *)
Definition scaled (m : positive) (e : Z) (d : nat) : Z :=
  let n := Zpos m * 10 ^ Z.of_nat d in
  if 0 <=? e then n * 2 ^ e else (2 * n + 2 ^ (- e)) / (2 * 2 ^ (- e)).

Fixpoint group3 (least_first : list ascii) (run : nat) : list ascii :=
  match least_first with
  | [] => []
  | c :: r =>
      match run with
      | 3%nat => "."%char :: c :: group3 r 1
      | _ => c :: group3 r (S run)
      end
  end.

Definition grouped (z : Z) : string :=
  string_of_list_ascii (rev (group3 (rev (list_ascii_of_string (digits z))) 0)).

Fixpoint zeros (n : nat) : string :=
  match n with
  | O => ""
  | S k => "0" ++ zeros k
  end.

Definition fraction (f : Z) (d : nat) : string :=
  let s := digits f in zeros (d - String.length s) ++ s.

Definition NumberFormat (lo hi : nat) (x : JS.Number) : string :=
  match x with
  | S754_nan => "NaN"
  | S754_infinity neg => (if neg then "-" else "") ++ "∞"
  | S754_zero neg =>
      (if neg then "-" else "") ++ "0" ++
      (match lo with O => "" | _ => "," ++ zeros lo end)
  | S754_finite neg m e =>
      let n := scaled m e hi in
      let p := 10 ^ Z.of_nat hi in
      (if neg then "-" else "") ++ grouped (n / p) ++
      (match hi with O => "" | _ => "," ++ fraction (n mod p) hi end)
  end.

Definition ascii_upper (c : ascii) : ascii :=
  let n := nat_of_ascii c in
  if (Nat.leb 97 n && Nat.leb n 122)%bool then ascii_of_nat (n - 32) else c.

Fixpoint upper (s : string) : string :=
  match s with
  | EmptyString => EmptyString
  | String c r => String (ascii_upper c) (upper r)
  end.

#[export] Instance platform : Platform := {|
  NumberFormat_es_CL := NumberFormat;
  toLocaleDateString_es_CL := fun fecha =>
    substring 8 2 fecha ++ "-" ++ substring 5 2 fecha ++ "-" ++ substring 0 4 fecha;
  toLocaleDateString_short := fun fecha =>
    substring 8 2 fecha ++ "-" ++ substring 5 2 fecha;
  toUpperCase := upper;
  builtin_text := fun key =>
    if String.eqb key "__proto__" then "[object Object]"
    else if String.eqb key "constructor" then "function Object() { [native code] }"
    else "function " ++ key ++ "() { [native code] }"
|}.

End Reference.

(* ================================================================== *)
(** * Vocabulary of the properties                                     *)
(* ================================================================== *)

(** The values of the currency selector (the keys of [currencyNames]). *)
Definition currency_codes : list string :=
  [ "dolar"; "euro"; "uf"; "utm"; "dolar_intercambio" ].

(** The three messages the script passes to [showError]. *)
Definition validation_amount : string :=
  "Por favor, ingresa un monto válido mayor a 0.".
Definition validation_currency : string :=
  "Por favor, selecciona una moneda de destino.".
Definition generic_error : string :=
  "Error al obtener los datos de conversión. Verifica tu conexión a internet e intenta nuevamente.".

(** A settled request the [try] block accepts: success status, JSON body,
    [serie] present and not empty.  Every other one makes it throw. *)
Definition succeeds (r : Settled) : bool :=
  match r with
  | Response status (Json (Some (_ :: _))) => ok status
  | _ => false
  end.

(** The two failures of the request itself: a status outside 200-299, and a
    body without [serie] or with an empty one. *)
Definition bad_status (r : Settled) : bool :=
  match r with
  | Response status _ => negb (ok status)
  | Rejected => false
  end.

Definition no_data (r : Settled) : bool :=
  match r with
  | Response status (Json None) => ok status
  | Response status (Json (Some [])) => ok status
  | _ => false
  end.

(** A point of the chart: the short date of an observation and its value. *)
Definition point `{Platform} (o : Observation) : string * JS.Number :=
  (toLocaleDateString_short (fecha o), valor o).

(** A request is in flight: a call of [convertCurrency] is suspended. *)
Definition in_flight (st : Widget.State) : bool :=
  match Widget.pending st with
  | [] => false
  | _ :: _ => true
  end.

(** What holds of the page with the chart in every state it can reach. *)
Record invariant (st : Widget.State) : Prop := {
  inv_pending : (List.length (Widget.pending st) <= 1)%nat;
  inv_loading : loadingDiv_hidden (Widget.dom st) = negb (in_flight st);
  inv_button : convertBtn_disabled (Widget.dom st) = in_flight st;
  inv_result : in_flight st = true -> resultDiv_hidden (Widget.dom st) = true;
  inv_chart : in_flight st = true -> Widget.chartSection_hidden st = true;
  inv_error : in_flight st = true -> errorDiv_hidden (Widget.dom st) = true;
  inv_message :
    errorDiv_hidden (Widget.dom st) = false ->
    In (errorDiv_p (Widget.dom st)) [validation_amount; validation_currency; generic_error];
  inv_alive :
    Widget.alive st = [] \/
    exists c, Widget.currencyChart st = Some c /\ Widget.alive st = [c];
  inv_fresh :
    forall c, Widget.currencyChart st = Some c -> (Widget.chart_id c < Widget.made st)%nat
}.

(** The event of [script.js] that an event of the page with the chart is:
    whether the chart can be constructed is of no concern there. *)
Definition forget_chart (e : Widget.Event) : Script.Event :=
  match e with
  | Widget.SubmitForm => Script.SubmitForm
  | Widget.Settle k r _ => Script.Settle k r
  | Widget.AmountInput v => Script.AmountInput v
  | Widget.CurrencyChange v => Script.CurrencyChange v
  | Widget.ClearForm => Script.ClearForm
  end.

Definition chart_never_throws (es : list Widget.Event) : bool :=
  forallb (fun e => match e with
                    | Widget.Settle _ _ chart_throws => negb chart_throws
                    | _ => true
                    end) es.

(** A page with its error region blanked: two pages that are equal so are
    equal in every element but the error region. *)
Definition besides_error (d : Dom) : Dom :=
  set_errorDiv_hidden true (set_errorDiv_p "" d).

(** The two pages agree: on every element but the error region, on the
    suspended calls and on the requests issued. *)
Definition agree (w : Widget.State) (s : Script.State) : Prop :=
  besides_error (Widget.dom w) = besides_error (Script.dom s) /\
  Widget.pending w = Script.pending s /\
  Widget.fetched w = Script.fetched s.

(** They agree on the error region and on the console as well. *)
Definition agree_fully (w : Widget.State) (s : Script.State) : Prop :=
  Widget.dom w = Script.dom s /\
  Widget.pending w = Script.pending s /\
  Widget.fetched w = Script.fetched s /\
  Widget.console w = Script.console s.

(** A suspended call carries a submission that passed validation. *)
Definition validated (call : JS.Number * string) : Prop :=
  JS.ltb JS.zero (fst call) = true /\ snd call <> "".

(** A URL of the API: the base and a currency code that is not empty. *)
Definition request_url (u : string) : Prop :=
  exists currency : string, currency <> "" /\ u = Widget.API_URL ++ "/" ++ currency.

(** The five result fields as [displayResult] writes them for the
    conversion of [amount] at the rate of [latest]. *)
Definition displays `{Platform} (d : Dom) (amount : JS.Number) (currency : string)
    (latest : Observation) : Prop :=
  originalAmountSpan d = Widget.formatNumber amount 0 /\
  targetCurrencySpan d = textContent (JS.Get Widget.currencyNames currency) /\
  exchangeRateSpan d = Widget.formatNumber (valor latest) 0 /\
  convertedAmountSpan d
  = Widget.formatConvertedAmount (JS.div amount (valor latest)) currency /\
  updateDateSpan d = toLocaleDateString_es_CL (fecha latest).

(** A chart with one to three points, a label for each value. *)
Definition chart_wellformed (c : Widget.Chart) : Prop :=
  (1 <= List.length (Widget.chart_labels c) <= 3)%nat /\
  List.length (Widget.chart_labels c) = List.length (Widget.dataset_data c).

(** The chart [c] draws the series [serie] of [currency]. *)
Definition charted `{Platform} (c : Widget.Chart) (currency : string)
    (serie : list Observation) : Prop :=
  Widget.chart_points c = map point (Widget.last3Days serie) /\
  Widget.dataset_label c
  = "Valor en CLP - " ++ ToString (JS.Get Widget.currencyNames currency).

(** What else holds of the page with the chart in every state it reaches:
    what the suspended calls, the requests, the result fields and the chart
    are made of. *)
Record consistent `{Platform} (st : Widget.State) : Prop := {
  con_pending : Forall validated (Widget.pending st);
  con_fetched : Forall request_url (Widget.fetched st);
  con_result :
    resultDiv_hidden (Widget.dom st) = false ->
    exists amount currency latest,
      validated (amount, currency) /\ displays (Widget.dom st) amount currency latest;
  con_chart :
    forall c, Widget.currencyChart st = Some c -> chart_wellformed c;
  con_shown :
    Widget.chartSection_hidden st = false ->
    resultDiv_hidden (Widget.dom st) = false /\
    exists amount currency latest rest c,
      displays (Widget.dom st) amount currency latest /\
      Widget.currencyChart st = Some c /\ Widget.alive st = [c] /\
      charted c currency (latest :: rest)
}.

(** The event of the page with the chart that an event of [script.js]
    stands for when every chart can be made. *)
Definition with_chart (e : Script.Event) : Widget.Event :=
  match e with
  | Script.SubmitForm => Widget.SubmitForm
  | Script.Settle k r => Widget.Settle k r false
  | Script.AmountInput v => Widget.AmountInput v
  | Script.CurrencyChange v => Widget.CurrencyChange v
  | Script.ClearForm => Widget.ClearForm
  end.

(** ** A session on the reference platform

    The example of the spec: 1000 pesos to dollars, the API answering with
    three observations, newest first. *)
Module Example.

Definition serie : list Observation :=
  [ {| fecha := "2024-01-03"; valor := JS.of_Z 900 |};
    {| fecha := "2024-01-02"; valor := JS.of_Z 890 |};
    {| fecha := "2024-01-01"; valor := JS.of_Z 880 |} ].

Definition answer : Settled := Response 200 (Json (Some serie)).

(** The user fills the form and submits it. *)
Definition filled : Widget.State :=
  @Widget.run Reference.platform
    [ Widget.AmountInput "1000"; Widget.CurrencyChange "dolar" ].

(** The request settles with [answer] and the chart is made. *)
Definition converted : list Widget.Event :=
  [ Widget.AmountInput "1000"; Widget.CurrencyChange "dolar";
    Widget.SubmitForm; Widget.Settle 0 answer false ].

(** The amount is then replaced by one that is not valid. *)
Definition resubmitted : list Widget.Event :=
  converted ++ [ Widget.AmountInput "0"; Widget.SubmitForm ].

(** A form with a negative amount. *)
Definition negative : Widget.State :=
  @Widget.run Reference.platform
    [ Widget.AmountInput "-5"; Widget.CurrencyChange "dolar" ].

End Example.

(* ================================================================== *)
(** * Properties                                                       *)
(* ================================================================== *)

(** ** Lists and numbers *)

Lemma nth_error_last {A : Type} (l : list A) (x : A) :
  nth_error (l ++ [x])%list (List.length l) = Some x.
Proof.
  induction l as [|y l IH]; [reflexivity | exact IH].
Qed.

Lemma remove_nth_last {A : Type} (l : list A) (x : A) :
  remove_nth (List.length l) (l ++ [x])%list = l.
Proof.
  induction l as [|y l IH]; [reflexivity | cbn; now rewrite IH].
Qed.

(** A number above zero is truthy and is not [<= 0]: it passes the test of
    [handleConversion]. *)
Lemma positive_passes (a : JS.Number) :
  JS.ltb JS.zero a = true ->
  (negb (JS.ToBoolean a) || JS.leb a JS.zero)%bool = false.
Proof.
  destruct a as [s|s| |s m e]; try destruct s; cbn; congruence.
Qed.

(** NaN and the numbers [<= 0] fail it. *)
Lemma not_positive_fails (a : JS.Number) :
  a = JS.NaN \/ JS.leb a JS.zero = true ->
  (negb (JS.ToBoolean a) || JS.leb a JS.zero)%bool = true.
Proof.
  intros [-> | H]; [reflexivity | rewrite H; apply orb_true_r].
Qed.

(** *** Rounding never produces NaN

    [binary_round_aux] answers NaN only on a negative mantissa; shifting and
    rounding a mantissa that is not negative keep it so. *)

Lemma shr_1_nonneg (mrs : shr_record) :
  0 <= shr_m mrs -> 0 <= shr_m (shr_1 mrs).
Proof.
  destruct mrs as [m r s]; cbn [shr_m]; intros Hm.
  destruct m as [|p|p]; [cbn; lia | | lia].
  destruct p; cbn; lia.
Qed.

Lemma iter_shr_1_nonneg (p : positive) :
  forall mrs, 0 <= shr_m mrs -> 0 <= shr_m (iter_pos shr_1 p mrs).
Proof.
  induction p as [p IH|p IH|]; intros mrs Hm; cbn [iter_pos].
  - apply IH, IH, shr_1_nonneg, Hm.
  - apply IH, IH, Hm.
  - apply shr_1_nonneg, Hm.
Qed.

Lemma shr_fexp_nonneg (m e : Z) (l : location) :
  0 <= m -> 0 <= shr_m (fst (shr_fexp JS.prec JS.emax m e l)).
Proof.
  intros Hm; unfold shr_fexp, shr.
  assert (H0 : 0 <= shr_m (shr_record_of_loc m l)).
  { destruct l as [|[| |]]; exact Hm. }
  destruct (fexp JS.prec JS.emax (Zdigits2 m + e) - e) as [|p|p]; cbn [fst];
    [exact H0 | apply iter_shr_1_nonneg, H0 | exact H0].
Qed.

Lemma round_nearest_even_nonneg (m : Z) (l : location) :
  0 <= m -> 0 <= round_nearest_even m l.
Proof.
  intros Hm; destruct l as [|[| |]]; cbn; try destruct (Z.even m); lia.
Qed.

Lemma binary_round_aux_not_nan (sx : bool) (mx ex : Z) (lx : location) :
  0 <= mx -> binary_round_aux JS.prec JS.emax sx mx ex lx <> S754_nan.
Proof.
  intros Hm; unfold binary_round_aux.
  pose proof (shr_fexp_nonneg mx ex lx Hm) as H1.
  destruct (shr_fexp JS.prec JS.emax mx ex lx) as [mrs' e']; cbn [fst] in H1.
  pose proof (shr_fexp_nonneg _ e' loc_Exact
                (round_nearest_even_nonneg _ (loc_of_shr_record mrs') H1)) as H2.
  destruct (shr_fexp JS.prec JS.emax _ e' loc_Exact) as [mrs'' e'']; cbn [fst] in H2.
  destruct (shr_m mrs'') as [|m|m]; [discriminate | | lia].
  destruct (e'' <=? JS.emax - JS.prec); discriminate.
Qed.

Lemma binary_normalize_not_nan (m e : Z) (szero : bool) :
  binary_normalize JS.prec JS.emax m e szero <> S754_nan.
Proof.
  destruct m as [|p|p]; cbn [binary_normalize]; [discriminate | |];
    unfold binary_round;
    destruct (shl_align p e _) as [mz ez]; apply binary_round_aux_not_nan; lia.
Qed.

Lemma SFdiv_finite_not_nan (sx sy : bool) (mx my : positive) (ex ey : Z) :
  SFdiv JS.prec JS.emax (S754_finite sx mx ex) (S754_finite sy my ey) <> S754_nan.
Proof.
  cbn [SFdiv]; unfold SFdiv_core_binary.
  set (s := ex - ey - _).
  set (m' := match s with Z0 => Zpos mx | Zpos _ => Z.shiftl (Zpos mx) s | Zneg _ => 0 end).
  assert (Hm' : 0 <= m').
  { subst m'; destruct s; [lia | apply Z.shiftl_nonneg; lia | lia]. }
  pose proof (Z.div_pos m' (Zpos my) Hm' (eq_refl _)) as Hq.
  unfold Z.div in Hq.
  destruct (Z.div_eucl m' (Zpos my)) as [q r]; cbn [fst] in Hq.
  apply binary_round_aux_not_nan, Hq.
Qed.

Lemma round_decimal_not_nan (neg : bool) (m e10 : Z) :
  JS.round_decimal neg m e10 <> JS.NaN.
Proof.
  unfold JS.round_decimal, JS.NaN.
  destruct m as [|p|p]; try discriminate.
  destruct (0 <=? e10);
    [apply binary_normalize_not_nan | apply SFdiv_finite_not_nan].
Qed.

(** [parseFloat] answers NaN exactly when the trimmed string has no prefix
    that is a decimal literal. *)
Lemma parseFloat_NaN_iff (s : string) :
  JS.parseFloat s = JS.NaN <-> JS.StrDecimalLiteral (JS.TrimStart s) = None.
Proof.
  unfold JS.parseFloat.
  destruct (JS.StrDecimalLiteral (JS.TrimStart s)) as [[neg l]|].
  - split; [| discriminate].
    destruct l as [|ip fp e]; cbn [JS.literal_value].
    + discriminate.
    + intros H; now apply round_decimal_not_nan in H.
  - split; reflexivity.
Qed.

Lemma currency_code_not_empty (c : string) :
  In c currency_codes -> String.eqb c "" = false.
Proof.
  cbn; intros H.
  repeat (destruct H as [<- | H]; [reflexivity |]); contradiction.
Qed.

Section WidgetProperties.
Context {P : Platform}.

Import Widget.

(** ** The conversion *)

Lemma settle_issued (amount : JS.Number) (currency : string) (r : Settled)
    (chart_throws : bool) (st : State) :
  settle (List.length (pending st)) r chart_throws
         (convertCurrency_begin amount currency st)
  = convertCurrency_resume amount currency r chart_throws
      (set_pending (pending st) (convertCurrency_begin amount currency st)).
Proof.
  unfold settle; cbn [pending convertCurrency_begin].
  now rewrite nth_error_last, remove_nth_last.
Qed.

(** C1.  A valid submission (amount above zero, currency of the enumeration)
    suspends one call with the parsed amount; when the request settles with
    a success status and a non-empty series, the converted amount shown is
    the amount divided by the [valor] of the head of the series, by one
    formula for every currency. *)
Theorem converted_amount_is_amount_over_latest_rate :
  forall (st : State) (currency : string) (latest : Observation)
         (rest : list Observation) (status : nat) (chart_throws : bool),
    let amount := JS.parseFloat (amountInput_value (dom st)) in
    JS.ltb JS.zero amount = true ->
    In currency currency_codes ->
    currencySelect_value (dom st) = currency ->
    ok status = true ->
    let st1 := handleConversion st in
    let st2 := settle (List.length (pending st))
                      (Response status (Json (Some (latest :: rest))))
                      chart_throws st1 in
    pending st1 = (pending st ++ [(amount, currency)])%list /\
    convertedAmountSpan (dom st2)
      = formatConvertedAmount (JS.div amount (valor latest)) currency /\
    exchangeRateSpan (dom st2) = formatNumber (valor latest) 0 /\
    originalAmountSpan (dom st2) = formatNumber amount 0 /\
    resultDiv_hidden (dom st2) = false /\
    (forall kind : string,
        calculateConversion amount (valor latest) kind = JS.div amount (valor latest)).
Proof.
  intros st currency latest rest status chart_throws amount Hpos Hin Hcur Hok st1 st2.
  assert (Hst1 : st1 = convertCurrency_begin amount currency st).
  { subst st1; unfold handleConversion; fold amount.
    rewrite (positive_passes _ Hpos), Hcur, (currency_code_not_empty _ Hin).
    reflexivity. }
  assert (Hst2 : st2 = convertCurrency_resume amount currency
                         (Response status (Json (Some (latest :: rest)))) chart_throws
                         (set_pending (pending st) (convertCurrency_begin amount currency st))).
  { subst st2; rewrite Hst1; apply settle_issued. }
  split; [rewrite Hst1; reflexivity |].
  rewrite Hst2; unfold convertCurrency_resume, convertCurrency_try.
  rewrite Hok; cbn [negb].
  unfold createChart; destruct chart_throws; cbn;
    destruct (currencyChart st); cbn; repeat split; reflexivity.
Qed.

End WidgetProperties.

Section WidgetRequests.
Context {P : Platform}.

Import Widget.

(** ** Validation *)

(** C2.  When the amount field parses to NaN or to a number that is not
    above zero, or the currency selector is empty, [handleConversion] only
    shows a validation message: no request is issued and no call of
    [convertCurrency] is started. *)
Theorem invalid_submission_is_rejected :
  forall st : State,
    let amount := JS.parseFloat (amountInput_value (dom st)) in
    amount = JS.NaN \/ JS.leb amount JS.zero = true
      \/ currencySelect_value (dom st) = "" ->
    exists message : string,
      (message = validation_amount \/ message = validation_currency) /\
      handleConversion st = showError message st /\
      fetched (handleConversion st) = fetched st /\
      pending (handleConversion st) = pending st /\
      errorDiv_hidden (dom (handleConversion st)) = false /\
      errorDiv_p (dom (handleConversion st)) = message.
Proof.
  intros st amount H; unfold handleConversion; fold amount.
  destruct (negb (JS.ToBoolean amount) || JS.leb amount JS.zero)%bool eqn:Hamount.
  - exists validation_amount; repeat split; auto.
  - destruct H as [H | [H | H]].
    + rewrite (not_positive_fails amount (or_introl H)) in Hamount; discriminate.
    + rewrite (not_positive_fails amount (or_intror H)) in Hamount; discriminate.
    + rewrite H; exists validation_currency; repeat split; auto.
Qed.

(** ** Failures of the request *)

Lemma failed_try (amount : JS.Number) (currency : string) (r : Settled)
    (chart_throws : bool) (st : State) :
  succeeds r = false ->
  exists e : Thrown, convertCurrency_try amount currency r chart_throws st = inr (e, st).
Proof.
  intros H; destruct r as [|status [|[[|o serie]|]]]; cbn in *;
    try (rewrite H; cbn); eauto.
  destruct (ok status); cbn; eauto.
  destruct (ok status); cbn; eauto.
  destruct (ok status); cbn; eauto.
Qed.

Lemma failed_resume (amount : JS.Number) (currency : string) (r : Settled)
    (chart_throws : bool) (st : State) :
  succeeds r = false ->
  exists e : Thrown,
    convertCurrency_resume amount currency r chart_throws st
    = hideLoading (showError generic_error (console_error e st)).
Proof.
  intros H; unfold convertCurrency_resume.
  destruct (failed_try amount currency r chart_throws st H) as [e ->].
  now exists e.
Qed.

(** C4.  A request that fails with a status outside 200-299, or with a body
    whose [serie] is absent or empty, ends in one and the same view: the
    error region shown with the generic message, the loading, result and
    chart regions hidden.  The page after one failure equals the page after
    the other; only the console tells them apart. *)
Theorem request_failures_are_indistinguishable :
  forall (amount : JS.Number) (currency : string) (r1 r2 : Settled)
         (t1 t2 : bool) (st : State),
    (bad_status r1 || no_data r1)%bool = true ->
    (bad_status r2 || no_data r2)%bool = true ->
    let s1 := convertCurrency amount currency r1 t1 st in
    let s2 := convertCurrency amount currency r2 t2 st in
    errorDiv_hidden (dom s1) = false /\
    errorDiv_p (dom s1) = generic_error /\
    resultDiv_hidden (dom s1) = true /\
    chartSection_hidden s1 = true /\
    loadingDiv_hidden (dom s1) = true /\
    dom s1 = dom s2 /\
    chartSection_hidden s1 = chartSection_hidden s2 /\
    currencyChart s1 = currencyChart s2 /\
    alive s1 = alive s2.
Proof.
  intros amount currency r1 r2 t1 t2 st H1 H2 s1 s2.
  assert (F : forall r, (bad_status r || no_data r)%bool = true -> succeeds r = false).
  { intros [|status [|[[|o serie]|]]]; cbn; try reflexivity.
    destruct (ok status); cbn; congruence. }
  subst s1 s2; unfold convertCurrency; rewrite !settle_issued.
  destruct (failed_resume amount currency r1 t1
              (set_pending (pending st) (convertCurrency_begin amount currency st))
              (F r1 H1)) as [e1 ->].
  destruct (failed_resume amount currency r2 t2
              (set_pending (pending st) (convertCurrency_begin amount currency st))
              (F r2 H2)) as [e2 ->].
  cbn; repeat split; reflexivity.
Qed.

End WidgetRequests.

(** ** The chart *)

Lemma combine_map_pair {A B C : Type} (f : A -> B) (g : A -> C) (l : list A) :
  combine (map f l) (map g l) = map (fun x => (f x, g x)) l.
Proof.
  induction l as [|x l IH]; [reflexivity | cbn; now rewrite IH].
Qed.

Lemma In_firstn {A : Type} (x : A) (n : nat) :
  forall l, In x (firstn n l) -> In x l.
Proof.
  induction n as [|n IH]; intros [|y l]; cbn; try contradiction.
  intros [H | H]; [now left | right; apply IH, H].
Qed.

Lemma StronglySorted_firstn {A : Type} (R : A -> A -> Prop) (n : nat) :
  forall l, StronglySorted R l -> StronglySorted R (firstn n l).
Proof.
  induction n as [|n IH]; intros l Hl; [constructor |].
  destruct l as [|x l]; [constructor |].
  inversion Hl as [|y l' Hsorted Hall]; subst.
  cbn [firstn]; constructor; [apply IH, Hsorted |].
  apply Forall_forall; intros z Hz.
  rewrite Forall_forall in Hall; apply Hall.
  now apply (In_firstn z n).
Qed.

Lemma StronglySorted_snoc {A : Type} (R : A -> A -> Prop) (l : list A) (a : A) :
  StronglySorted R l -> Forall (fun x => R x a) l ->
  StronglySorted R (l ++ [a])%list.
Proof.
  induction l as [|x l IH]; intros Hl Ha; cbn.
  - constructor; constructor.
  - inversion Hl as [|y l' Hsorted Hall]; subst.
    inversion Ha as [|y l' Hxa Hla]; subst.
    constructor; [apply IH; assumption |].
    apply Forall_app; split; [assumption | constructor; [assumption | constructor]].
Qed.

Lemma StronglySorted_rev {A : Type} (R : A -> A -> Prop) (l : list A) :
  StronglySorted R l -> StronglySorted (fun x y => R y x) (rev l).
Proof.
  induction 1 as [|a l Hsorted IH Hall]; cbn; [constructor |].
  apply StronglySorted_snoc; [exact IH | apply Forall_rev, Hall].
Qed.

Section WidgetChart.
Context {P : Platform}.

Import Widget.

(** C3.  When the chart is constructed, its label/value pairs are the points
    of the first three elements of the series in reverse order: for a series
    [a :: b :: c :: rest] they are the points of [c], [b], [a]; for a shorter
    series they are the points of all its elements reversed, one pair per
    element.  If the series comes newest first, in whatever order on
    observations [newer] is, the chart runs oldest first. *)
Theorem chart_shows_first_three_oldest_first :
  forall (currency : string) (serie : list Observation) (st : State),
    exists (chart : Chart) (st' : State),
      createChart currency serie false st = inl st' /\
      currencyChart st' = Some chart /\
      chartSection_hidden st' = false /\
      chart_points chart = map point (last3Days serie) /\
      (forall a b c rest, serie = a :: b :: c :: rest ->
         chart_points chart = [point c; point b; point a]) /\
      ((List.length serie < 3)%nat ->
         chart_points chart = map point (rev serie) /\
         List.length (chart_points chart) = List.length serie) /\
      (forall newer : Observation -> Observation -> Prop,
         StronglySorted newer serie ->
         StronglySorted (fun x y => newer y x) (last3Days serie)).
Proof.
  intros currency serie st.
  unfold createChart.
  eexists; eexists; split; [reflexivity |].
  cbn [currencyChart showChart set_chartSection_hidden set_charts chartSection_hidden].
  split; [reflexivity |]. split; [reflexivity |].
  assert (Hpoints : forall n label l,
            chart_points
              (new_Chart n (map (fun item => toLocaleDateString_short (fecha item)) l)
                         label (map (fun item => valor item) l))
            = map point l).
  { intros n label l; unfold chart_points; cbn; apply combine_map_pair. }
  split; [apply Hpoints |].
  split; [intros a b c rest ->; reflexivity |].
  split.
  - intros Hlen; unfold last3Days.
    rewrite firstn_all2 by lia.
    split; [apply Hpoints |].
    rewrite Hpoints, length_map, length_rev; reflexivity.
  - intros newer Hsorted; unfold last3Days.
    apply StronglySorted_rev, StronglySorted_firstn, Hsorted.
Qed.

End WidgetChart.

Section WidgetFormatting.
Context {P : Platform}.

Import Widget.

(** ** Formatting of the converted amount *)

Lemma format_uf (amount : JS.Number) :
  formatConvertedAmount amount "uf" = formatNumber amount 4 ++ " UF".
Proof. reflexivity. Qed.

Lemma format_utm (amount : JS.Number) :
  formatConvertedAmount amount "utm" = formatNumber amount 4 ++ " UTM".
Proof. reflexivity. Qed.

Lemma format_other (amount : JS.Number) (currency : string) :
  currency <> "uf" -> currency <> "utm" ->
  formatConvertedAmount amount currency
  = ToString (getCurrencySymbol currency) ++ " " ++ formatNumber amount 2.
Proof.
  intros Huf Hutm; unfold formatConvertedAmount.
  apply String.eqb_neq in Huf, Hutm; now rewrite Huf, Hutm.
Qed.

(** The fallback of [getCurrencySymbol] is taken for a code that is neither
    a key of the table nor the name of a member of Object.prototype. *)
Lemma symbol_of_unknown_code (currency : string) :
  ~ In currency currency_codes ->
  ~ In currency JS.ObjectPrototype ->
  getCurrencySymbol currency = JS.Str (toUpperCase currency).
Proof.
  intros Hcode Hproto; unfold getCurrencySymbol, JS.Get.
  assert (Hown : JS.GetOwn [ ("dolar", "USD"); ("dolar_intercambio", "USD");
                             ("euro", "EUR"); ("uf", "UF"); ("utm", "UTM") ] currency
                 = None).
  { cbn [JS.GetOwn].
    repeat match goal with
           | |- context [String.eqb ?k currency] =>
               destruct (String.eqb_spec k currency) as [<- | _];
               [exfalso; apply Hcode; unfold currency_codes, In; tauto |]
           end.
    reflexivity. }
  rewrite Hown.
  assert (Hex : existsb (String.eqb currency) JS.ObjectPrototype = false).
  { destruct (existsb (String.eqb currency) JS.ObjectPrototype) eqn:E; [| reflexivity].
    apply existsb_exists in E; destruct E as [k [Hin Hk]].
    apply String.eqb_eq in Hk; subst k; contradiction. }
  now rewrite Hex.
Qed.

(** C6, at the code [constructor].  The table [symbols] is an object
    literal, and [symbols['constructor']] is the member it inherits from
    Object.prototype: a truthy value, so the [||] of [getCurrencySymbol] keeps
    it and the upper-cased code is never reached.  The rendered string starts
    with the text of that built-in, not with [CONSTRUCTOR]. *)
Theorem constructor_is_not_upper_cased :
  forall amount : JS.Number,
    ~ In "constructor" currency_codes /\
    getCurrencySymbol "constructor" = JS.Inherited "constructor" /\
    getCurrencySymbol "constructor" <> JS.Str (toUpperCase "constructor") /\
    formatConvertedAmount amount "constructor"
    = builtin_text "constructor" ++ " " ++ formatNumber amount 2.
Proof.
  intros amount; repeat split; try reflexivity; try discriminate.
  cbn; intros H; repeat (destruct H as [H | H]; [discriminate |]); exact H.
Qed.

(** ** Prefix parsing of the amount *)

(** C10.  The amount ["12abc"] is not rejected: [parseFloat] reads its
    prefix ["12"], the submission passes validation with the amount 12, the
    request is issued, and when it settles the conversion of 12 is shown
    ([script.js] accepts it likewise).  An amount is rejected as not numeric
    only when [parseFloat] finds no literal at the head of the trimmed
    string. *)
Theorem amount_with_numeric_prefix_is_converted :
  JS.parseFloat "12abc" = JS.of_Z 12 /\
  JS.parseFloat "12abc" = JS.parseFloat "12" /\
  (forall (st : State) (latest : Observation) (rest : list Observation)
          (chart_throws : bool),
      let st0 := with_dom (fun d => set_currencySelect_value "dolar"
                                      (set_amountInput_value "12abc" d)) st in
      let st1 := handleConversion st0 in
      let st2 := settle (List.length (pending st))
                        (Response 200 (Json (Some (latest :: rest))))
                        chart_throws st1 in
      st1 = convertCurrency_begin (JS.of_Z 12) "dolar" st0 /\
      fetched st1 = (fetched st ++ ["https://mindicador.cl/api/dolar"])%list /\
      errorDiv_hidden (dom st1) = true /\
      convertedAmountSpan (dom st2)
      = formatConvertedAmount (JS.div (JS.of_Z 12) (valor latest)) "dolar") /\
  (forall st : Script.State,
      let st0 := Script.with_dom (fun d => set_currencySelect_value "dolar"
                                             (set_amountInput_value "12abc" d)) st in
      Script.handleConversion st0 = Script.convertCurrency_begin (JS.of_Z 12) "dolar" st0) /\
  (forall raw : string,
      JS.parseFloat raw = JS.NaN <-> JS.StrDecimalLiteral (JS.TrimStart raw) = None).
Proof.
  split; [reflexivity |]. split; [reflexivity |].
  split; [| split; [reflexivity | exact parseFloat_NaN_iff]].
  intros st latest rest chart_throws st0 st1 st2.
  assert (Hst1 : st1 = convertCurrency_begin (JS.of_Z 12) "dolar" st0) by reflexivity.
  split; [exact Hst1 |].
  split; [reflexivity |]. split; [reflexivity |].
  subst st2; rewrite Hst1.
  change (pending st) with (pending st0); rewrite settle_issued.
  unfold convertCurrency_resume, convertCurrency_try, createChart.
  destruct chart_throws; cbn; destruct (currencyChart st); reflexivity.
Qed.

End WidgetFormatting.

Section WidgetStates.
Context {P : Platform}.

Import Widget.

(** ** The states of the page *)

Lemma run_snoc (es : list Event) (e : Event) :
  run (es ++ [e]) = step (run es) e.
Proof. unfold run; now rewrite fold_left_app. Qed.

Lemma reachable_run (es : list Event) : reachable (run es).
Proof.
  induction es as [|e es IH] using rev_ind;
    [constructor | rewrite run_snoc; now constructor].
Qed.

Lemma invariant_initial : invariant initial.
Proof.
  constructor; cbn; auto; try discriminate.
Qed.

(** The two ways [handleConversion] ends. *)
Lemma handleConversion_cases (st : State) :
  (exists message,
      In message [validation_amount; validation_currency] /\
      handleConversion st = showError message st) \/
  (exists amount currency,
      handleConversion st = convertCurrency_begin amount currency st).
Proof.
  unfold handleConversion.
  destruct (negb _ || _)%bool; [left; exists validation_amount; cbn; auto |].
  destruct (String.eqb _ ""); [left; exists validation_currency; cbn; auto |].
  right; eauto.
Qed.

Lemma invariant_showError (message : string) (st : State) :
  In message [validation_amount; validation_currency; generic_error] ->
  in_flight st = false ->
  invariant st -> invariant (showError message st).
Proof.
  intros Hm Hidle [I1 I2 I3 I4 I5 I6 I7 I8 I9].
  constructor; cbn; auto; unfold in_flight in *; cbn; rewrite ?Hidle; try discriminate.
Qed.

Lemma invariant_begin (amount : JS.Number) (currency : string) (st : State) :
  in_flight st = false ->
  invariant st -> invariant (convertCurrency_begin amount currency st).
Proof.
  intros Hidle [I1 I2 I3 I4 I5 I6 I7 I8 I9].
  unfold in_flight in Hidle.
  destruct (pending st) as [|p ps] eqn:Hp; [| discriminate].
  constructor; unfold in_flight; cbn; rewrite ?Hp; cbn; auto; discriminate.
Qed.

(** The three ways the rest of [convertCurrency] ends: the request failed;
    the result is displayed and the chart made; the result is displayed and
    the chart could not be made. *)
Lemma resume_cases (amount : JS.Number) (currency : string) (r : Settled)
    (chart_throws : bool) (st : State) :
  (succeeds r = false /\
   exists e, convertCurrency_resume amount currency r chart_throws st
             = hideLoading (showError generic_error (console_error e st))) \/
  (succeeds r = true /\
   exists latest rest status st',
     r = Response status (Json (Some (latest :: rest))) /\
     (chart_throws = false -> createChart currency (latest :: rest) false
            (displayResult amount currency (valor latest)
               (calculateConversion amount (valor latest) currency)
               (toLocaleDateString_es_CL (fecha latest)) st) = inl st' /\
        convertCurrency_resume amount currency r chart_throws st = hideLoading st') /\
     (chart_throws = true -> createChart currency (latest :: rest) true
            (displayResult amount currency (valor latest)
               (calculateConversion amount (valor latest) currency)
               (toLocaleDateString_es_CL (fecha latest)) st) = inr (ChartError, st') /\
        convertCurrency_resume amount currency r chart_throws st
        = hideLoading (showError generic_error (console_error ChartError st')))).
Proof.
  destruct (succeeds r) eqn:Hr.
  - right; split; [reflexivity |].
    destruct r as [|status [|[[|latest rest]|]]]; try discriminate.
    cbn in Hr.
    unfold convertCurrency_resume, convertCurrency_try; rewrite Hr; cbn [negb].
    unfold createChart.
    destruct chart_throws.
    + do 4 eexists; split; [reflexivity |].
      split; [discriminate | intros _; split; reflexivity].
    + do 4 eexists; split; [reflexivity |].
      split; [intros _; split; reflexivity | discriminate].
  - left; split; [reflexivity |]. now apply failed_resume.
Qed.

Lemma destroy_current (st : State) (c : Chart) :
  Widget.alive st = [] \/ (exists c', currencyChart st = Some c' /\ Widget.alive st = [c']) ->
  currencyChart st = Some c ->
  filter (fun x => negb (Nat.eqb (chart_id x) (chart_id c))) (Widget.alive st) = [].
Proof.
  intros [-> | [c' [Hc' ->]]] Hc; [reflexivity |].
  rewrite Hc in Hc'; injection Hc' as <-; cbn; now rewrite Nat.eqb_refl.
Qed.

Lemma invariant_resume (amount : JS.Number) (currency : string) (r : Settled)
    (chart_throws : bool) (st : State) :
  pending st = [] ->
  (errorDiv_hidden (dom st) = false ->
   In (errorDiv_p (dom st)) [validation_amount; validation_currency; generic_error]) ->
  Widget.alive st = [] \/ (exists c, currencyChart st = Some c /\ Widget.alive st = [c]) ->
  (forall c, currencyChart st = Some c -> (chart_id c < made st)%nat) ->
  invariant (convertCurrency_resume amount currency r chart_throws st).
Proof.
  intros Hp Hmsg Halive Hfresh.
  pose proof (fun c => destroy_current st c Halive) as Hfilter.
  unfold convertCurrency_resume, convertCurrency_try.
  destruct r as [|status [|[[|latest rest]|]]];
    try (constructor; unfold in_flight; cbn; rewrite ?Hp; cbn; auto; discriminate).
  all: destruct (ok status); cbn [negb];
    try (constructor; unfold in_flight; cbn; rewrite ?Hp; cbn; auto; discriminate).
  unfold createChart.
  cbn [currencyChart displayResult showResult with_dom].
  destruct (currencyChart st) as [c|] eqn:Hc; destruct chart_throws;
    constructor; unfold in_flight; cbn; rewrite ?Hp, ?(Hfilter c eq_refl); cbn; auto;
    try discriminate;
    solve
      [ intros c0 H0; apply Hfresh; congruence
      | intros c0 H0; injection H0 as <-; unfold new_Chart; cbn; lia
      | right; eexists; split; reflexivity
      | destruct Halive as [Ha | [c' [Hc' Ha]]]; [rewrite Ha | discriminate];
        first [now left | right; eexists; split; reflexivity] ].
Qed.

Lemma single_pending (st : State) (k : nat) (call : JS.Number * string) :
  (List.length (pending st) <= 1)%nat ->
  nth_error (pending st) k = Some call ->
  pending st = [call] /\ remove_nth k (pending st) = [].
Proof.
  intros Hlen Hk.
  destruct (pending st) as [|x [|y l]]; cbn in Hlen; [| | lia].
  - destruct k; discriminate.
  - destruct k as [|k]; cbn in Hk; [injection Hk as ->; now split |].
    destruct k; discriminate.
Qed.

Lemma invariant_step (st : State) (e : Event) :
  invariant st -> invariant (step st e).
Proof.
  intros I; destruct e as [|k r chart_throws|v|v|]; cbn [step].
  - destruct (convertBtn_disabled (dom st)) eqn:Hbtn; [exact I |].
    assert (Hidle : in_flight st = false) by (rewrite <- (inv_button st I); exact Hbtn).
    destruct (handleConversion_cases st) as [[m [Hm ->]] | [a [c ->]]].
    + apply invariant_showError; auto.
      cbn in *; tauto.
    + now apply invariant_begin.
  - unfold settle.
    destruct (nth_error (pending st) k) as [[amount currency]|] eqn:Hk; [| exact I].
    destruct (single_pending st k _ (inv_pending st I) Hk) as [_ ->].
    apply invariant_resume; cbn.
    + reflexivity.
    + exact (inv_message st I).
    + exact (inv_alive st I).
    + exact (inv_fresh st I).
  - destruct I as [I1 I2 I3 I4 I5 I6 I7 I8 I9].
    constructor; unfold in_flight in *; cbn; auto; discriminate.
  - destruct I as [I1 I2 I3 I4 I5 I6 I7 I8 I9].
    unfold currencySelect_change, dispose_chart.
    cbn [currencyChart hideChart hideError with_dom set_chartSection_hidden].
    pose proof (fun c => destroy_current st c I8) as Hfilter.
    destruct (currencyChart st) as [c|] eqn:Hc;
      constructor; unfold in_flight in *; cbn; rewrite ?(Hfilter c eq_refl), ?Hc;
      auto; discriminate.
  - destruct I as [I1 I2 I3 I4 I5 I6 I7 I8 I9].
    unfold clearForm, dispose_chart.
    cbn [currencyChart hideChart hideError hideResult with_dom set_chartSection_hidden].
    pose proof (fun c => destroy_current st c I8) as Hfilter.
    destruct (currencyChart st) as [c|] eqn:Hc;
      constructor; unfold in_flight in *; cbn; rewrite ?(Hfilter c eq_refl), ?Hc;
      auto; discriminate.
Qed.

Lemma invariant_reachable (st : State) : reachable st -> invariant st.
Proof.
  induction 1 as [|st e _ IH]; [exact invariant_initial | now apply invariant_step].
Qed.

(** *** Where a region can come to be shown *)

Lemma result_shown_step (st : State) (e : Event) :
  resultDiv_hidden (dom (step st e)) = false ->
  resultDiv_hidden (dom st) = false \/
  exists k r t, e = Settle k r t /\ succeeds r = true.
Proof.
  destruct e as [|k r chart_throws|v|v|]; cbn [step].
  - destruct (convertBtn_disabled (dom st)); [now left |].
    destruct (handleConversion_cases st) as [[m [_ ->]] | [a [c ->]]];
      cbn; [now left | discriminate].
  - unfold settle.
    destruct (nth_error (pending st) k) as [[amount currency]|]; [| now left].
    destruct (resume_cases amount currency r chart_throws
                (set_pending (remove_nth k (pending st)) st))
      as [[_ [e ->]] | [Hr _]]; [cbn; now left | right; eauto].
  - cbn; now left.
  - unfold currencySelect_change, dispose_chart.
    cbn [currencyChart hideChart hideError with_dom set_chartSection_hidden].
    destruct (currencyChart st); cbn; now left.
  - unfold clearForm, dispose_chart.
    cbn [currencyChart hideChart hideError hideResult with_dom set_chartSection_hidden].
    destruct (currencyChart st); cbn; discriminate.
Qed.

Lemma chart_shown_step (st : State) (e : Event) :
  chartSection_hidden (step st e) = false ->
  chartSection_hidden st = false \/
  exists k r, e = Settle k r false /\ succeeds r = true.
Proof.
  destruct e as [|k r chart_throws|v|v|]; cbn [step].
  - destruct (convertBtn_disabled (dom st)); [now left |].
    destruct (handleConversion_cases st) as [[m [_ ->]] | [a [c ->]]];
      cbn; [now left | discriminate].
  - unfold settle.
    destruct (nth_error (pending st) k) as [[amount currency]|]; [| now left].
    destruct (resume_cases amount currency r chart_throws
                (set_pending (remove_nth k (pending st)) st))
      as [[_ [e ->]] | [Hr [latest [rest [status [st' [-> [Hmade Hthrown]]]]]]]];
      [cbn; now left |].
    destruct chart_throws; [| right; eauto].
    destruct (Hthrown eq_refl) as [Hcreate ->].
    unfold createChart in Hcreate.
    cbn [currencyChart displayResult showResult with_dom set_pending] in Hcreate.
    destruct (currencyChart st); injection Hcreate as <-; cbn; now left.
  - cbn; now left.
  - unfold currencySelect_change, dispose_chart.
    cbn [currencyChart hideChart hideError with_dom set_chartSection_hidden].
    destruct (currencyChart st); cbn; discriminate.
  - unfold clearForm, dispose_chart.
    cbn [currencyChart hideChart hideError hideResult with_dom set_chartSection_hidden].
    destruct (currencyChart st); cbn; discriminate.
Qed.

Lemma result_shown_after_success (es : list Event) :
  resultDiv_hidden (dom (run es)) = false ->
  exists k r t, In (Settle k r t) es /\ succeeds r = true.
Proof.
  induction es as [|e es IH] using rev_ind; [discriminate |].
  rewrite run_snoc; intros H.
  destruct (result_shown_step _ _ H) as [Hbefore | [k [r [t [-> Hr]]]]].
  - destruct (IH Hbefore) as [k [r [t [Hin Hr]]]].
    exists k, r, t; split; [apply in_or_app; now left | exact Hr].
  - exists k, r, t; split; [apply in_or_app; right; now left | exact Hr].
Qed.

Lemma chart_shown_after_success (es : list Event) :
  chartSection_hidden (run es) = false ->
  exists k r, In (Settle k r false) es /\ succeeds r = true.
Proof.
  induction es as [|e es IH] using rev_ind; [discriminate |].
  rewrite run_snoc; intros H.
  destruct (chart_shown_step _ _ H) as [Hbefore | [k [r [-> Hr]]]].
  - destruct (IH Hbefore) as [k [r [Hin Hr]]].
    exists k, r; split; [apply in_or_app; now left | exact Hr].
  - exists k, r; split; [apply in_or_app; right; now left | exact Hr].
Qed.

(** The one pending request of a state that has one. *)
Lemma the_pending_request (st : State) (k : nat) :
  invariant st -> (k < List.length (pending st))%nat ->
  exists amount currency,
    in_flight st = true /\
    forall r chart_throws,
      step st (Settle k r chart_throws)
      = convertCurrency_resume amount currency r chart_throws (set_pending [] st).
Proof.
  intros I Hk.
  destruct (nth_error (pending st) k) as [[amount currency]|] eqn:Hnth;
    [| apply nth_error_None in Hnth; lia].
  destruct (single_pending st k _ (inv_pending st I) Hnth) as [Hone Hnone].
  exists amount, currency; split; [unfold in_flight; now rewrite Hone |].
  intros r chart_throws; cbn [step]; unfold settle; now rewrite Hnth, Hnone.
Qed.

(** ** The loading indicator *)

(** C5.  [convertCurrency] shows the loading indicator and disables the
    submit control when it starts; however the request settles (success,
    failed fetch, bad status, bad body, no data, failed chart), the rest of
    the call hides the indicator and enables the control again.  On the page,
    when the pending request settles, nothing is left in flight and the
    indicator is hidden. *)
Theorem loading_is_cleared_when_the_request_settles :
  forall (amount : JS.Number) (currency : string) (r : Settled)
         (chart_throws : bool) (st : State),
    (loadingDiv_hidden (dom (convertCurrency_begin amount currency st)) = false /\
     convertBtn_disabled (dom (convertCurrency_begin amount currency st)) = true) /\
    (loadingDiv_hidden (dom (convertCurrency_resume amount currency r chart_throws st)) = true /\
     convertBtn_disabled (dom (convertCurrency_resume amount currency r chart_throws st)) = false) /\
    (loadingDiv_hidden (dom (convertCurrency amount currency r chart_throws st)) = true /\
     convertBtn_disabled (dom (convertCurrency amount currency r chart_throws st)) = false) /\
    (forall (es : list Event) (k : nat),
       (k < List.length (pending (run es)))%nat ->
       let st' := step (run es) (Settle k r chart_throws) in
       loadingDiv_hidden (dom st') = true /\
       convertBtn_disabled (dom st') = false /\
       pending st' = []).
Proof.
  intros amount currency r chart_throws st.
  split; [split; reflexivity |].
  split; [split; reflexivity |].
  split; [unfold convertCurrency; rewrite settle_issued; split; reflexivity |].
  intros es k Hk st'.
  pose proof (invariant_reachable _ (reachable_run es)) as I.
  destruct (the_pending_request (run es) k I Hk) as [a [c [_ Hstep]]].
  pose proof (invariant_step (run es) (Settle k r chart_throws) I) as I'.
  subst st'; rewrite Hstep in *.
  split; [reflexivity |]. split; [reflexivity |].
  pose proof (inv_loading _ I') as Hl.
  unfold in_flight in Hl.
  destruct (pending (convertCurrency_resume a c r chart_throws (set_pending [] (run es))));
    [reflexivity | discriminate Hl].
Qed.

(** ** The regions *)

(** C8, as the script has it.  In every state the page reaches: the loading
    region is shown exactly while a request is in flight, and then the
    result, chart and error regions are hidden; the result and the chart are
    shown only after a request has settled with success; a visible error
    region holds one of the three failure messages, and every edit of the
    amount or of the currency hides it; a request that fails leaves the error
    alone on the page, and one that succeeds leaves the result and the chart
    without the error.  (A validation message, or a chart that cannot be
    made, can put the error next to a result: that is not promised here.) *)
Theorem regions_follow_the_request :
  forall es : list Event,
    let st := run es in
    (loadingDiv_hidden (dom st) = false <-> pending st <> []) /\
    (pending st <> [] ->
       resultDiv_hidden (dom st) = true /\ chartSection_hidden st = true /\
       errorDiv_hidden (dom st) = true) /\
    (resultDiv_hidden (dom st) = false ->
       exists k r t, In (Settle k r t) es /\ succeeds r = true) /\
    (chartSection_hidden st = false ->
       exists k r, In (Settle k r false) es /\ succeeds r = true) /\
    (errorDiv_hidden (dom st) = false ->
       In (errorDiv_p (dom st)) [validation_amount; validation_currency; generic_error]) /\
    (forall v, errorDiv_hidden (dom (step st (AmountInput v))) = true) /\
    (forall v, errorDiv_hidden (dom (step st (CurrencyChange v))) = true) /\
    (forall k r t,
       (k < List.length (pending st))%nat -> succeeds r = false ->
       let st' := step st (Settle k r t) in
       errorDiv_hidden (dom st') = false /\ errorDiv_p (dom st') = generic_error /\
       resultDiv_hidden (dom st') = true /\ chartSection_hidden st' = true /\
       loadingDiv_hidden (dom st') = true) /\
    (forall k r,
       (k < List.length (pending st))%nat -> succeeds r = true ->
       let st' := step st (Settle k r false) in
       resultDiv_hidden (dom st') = false /\ chartSection_hidden st' = false /\
       errorDiv_hidden (dom st') = true /\ loadingDiv_hidden (dom st') = true).
Proof.
  intros es st.
  pose proof (invariant_reachable st (reachable_run es)) as I.
  assert (Hflight : pending st <> [] -> in_flight st = true).
  { unfold in_flight; destruct (pending st); [congruence | reflexivity]. }
  split.
  { rewrite (inv_loading st I); unfold in_flight.
    destruct (pending st); cbn; split; congruence. }
  split.
  { intros H; apply Hflight in H.
    repeat split; [apply inv_result | apply inv_chart | apply inv_error]; assumption. }
  split; [apply result_shown_after_success |].
  split; [apply chart_shown_after_success |].
  split; [apply (inv_message st I) |].
  split; [reflexivity |].
  split.
  { intros v; cbn [step]; unfold currencySelect_change, dispose_chart.
    cbn [currencyChart hideChart hideError with_dom set_chartSection_hidden].
    destruct (currencyChart st); reflexivity. }
  split.
  - intros k r t Hk Hr st'.
    destruct (the_pending_request st k I Hk) as [amount [currency [Hin Hstep]]].
    subst st'; rewrite Hstep.
    destruct (failed_resume amount currency r t (set_pending [] st) Hr) as [e ->].
    cbn; repeat split; [apply inv_result | apply inv_chart]; assumption.
  - intros k r Hk Hr st'.
    destruct (the_pending_request st k I Hk) as [amount [currency [Hin Hstep]]].
    subst st'; rewrite Hstep.
    destruct (resume_cases amount currency r false (set_pending [] st))
      as [[Hr' _] | [_ [latest [rest [status [st1 [-> [Hmade _]]]]]]]]; [congruence |].
    destruct (Hmade eq_refl) as [Hcreate ->].
    unfold createChart in Hcreate.
    cbn [currencyChart displayResult showResult with_dom set_pending] in Hcreate.
    destruct (currencyChart st); injection Hcreate as <-; cbn;
      repeat split; apply inv_error; assumption.
Qed.

(** ** The chart instance *)


End WidgetStates.

Section TwoVersions.
Context {P : Platform}.

(** ** [script.js] and the version with the chart *)

Lemma same_functions :
  (forall amount rate currency,
      Widget.calculateConversion amount rate currency
      = Script.calculateConversion amount rate currency) /\
  (forall currency, Widget.getCurrencySymbol currency = Script.getCurrencySymbol currency) /\
  (forall amount currency,
      Widget.formatConvertedAmount amount currency
      = Script.formatConvertedAmount amount currency) /\
  (forall number decimals,
      Widget.formatNumber number decimals = Script.formatNumber number decimals).
Proof. repeat split. Qed.

Lemma agree_step (w : Widget.State) (s : Script.State) (e : Widget.Event) :
  agree w s -> agree (Widget.step w e) (Script.step s (forget_chart e)).
Proof.
  intros [Hd [Hp Hf]].
  destruct w as [dw hw cw aw mw pw fw kw], s as [ds ps fs ks].
  cbn in Hd, Hp, Hf; subst ps fs.
  destruct dw as [l1 b1 r1 e1 t1 a1 c1 o1 g1 x1 v1 u1], ds as [l2 b2 r2 e2 t2 a2 c2 o2 g2 x2 v2 u2].
  injection Hd as -> -> -> -> -> -> -> -> -> ->.
  destruct e as [|k r chart_throws|v|v|]; cbn [Widget.step Script.step forget_chart].
  - cbn [Widget.dom Script.dom convertBtn_disabled].
    destruct b2; [repeat split |].
    unfold Widget.handleConversion, Script.handleConversion.
    cbn [Widget.dom Script.dom amountInput_value currencySelect_value].
    destruct (negb _ || _)%bool; [repeat split |].
    destruct (String.eqb c2 ""); repeat split.
  - unfold Widget.settle, Script.settle; cbn [Widget.pending Script.pending].
    destruct (nth_error pw k) as [[amount currency]|]; [| repeat split].
    unfold Widget.convertCurrency_resume, Script.convertCurrency_resume,
      Widget.convertCurrency_try, Script.convertCurrency_try, Widget.createChart.
    destruct r as [|status [|[[|latest rest]|]]]; try (repeat split; fail);
      destruct (ok status); cbn [negb]; try (repeat split; fail).
    destruct chart_throws, cw; repeat split.
  - repeat split.
  - unfold Widget.currencySelect_change, Widget.dispose_chart.
    destruct cw; repeat split.
  - unfold Widget.clearForm, Widget.dispose_chart.
    destruct cw; repeat split.
Qed.

Lemma agree_fully_step (w : Widget.State) (s : Script.State) (e : Widget.Event) :
  chart_never_throws [e] = true ->
  agree_fully w s -> agree_fully (Widget.step w e) (Script.step s (forget_chart e)).
Proof.
  intros He [Hd [Hp [Hf Hk]]].
  destruct w as [dw hw cw aw mw pw fw kw], s as [ds ps fs ks].
  cbn in Hd, Hp, Hf, Hk; subst ds ps fs ks.
  destruct e as [|k r chart_throws|v|v|]; cbn [Widget.step Script.step forget_chart].
  - cbn [Widget.dom Script.dom].
    destruct (convertBtn_disabled dw); [repeat split |].
    unfold Widget.handleConversion, Script.handleConversion.
    cbn [Widget.dom Script.dom].
    destruct (negb _ || _)%bool; [repeat split |].
    destruct (String.eqb _ ""); repeat split.
  - cbn in He; rewrite andb_true_r in He; apply negb_true_iff in He; subst chart_throws.
    unfold Widget.settle, Script.settle; cbn [Widget.pending Script.pending].
    destruct (nth_error pw k) as [[amount currency]|]; [| repeat split].
    unfold Widget.convertCurrency_resume, Script.convertCurrency_resume,
      Widget.convertCurrency_try, Script.convertCurrency_try, Widget.createChart.
    destruct r as [|status [|[[|latest rest]|]]]; try (repeat split; fail);
      destruct (ok status); cbn [negb]; try (repeat split; fail).
    destruct cw; repeat split.
  - repeat split.
  - unfold Widget.currencySelect_change, Widget.dispose_chart.
    destruct cw; repeat split.
  - unfold Widget.clearForm, Widget.dispose_chart.
    destruct cw; repeat split.
Qed.

Lemma agree_fold (es : list Widget.Event) :
  forall w s,
    agree w s ->
    agree (fold_left Widget.step es w) (fold_left Script.step (map forget_chart es) s).
Proof.
  induction es as [|e es IH]; intros w s H; [exact H |].
  cbn [fold_left map]; apply IH, agree_step, H.
Qed.

Lemma agree_fully_fold (es : list Widget.Event) :
  chart_never_throws es = true ->
  forall w s,
    agree_fully w s ->
    agree_fully (fold_left Widget.step es w)
                (fold_left Script.step (map forget_chart es) s).
Proof.
  induction es as [|e es IH]; intros Hes w s H; [exact H |].
  cbn [chart_never_throws forallb] in Hes; apply andb_true_iff in Hes.
  destruct Hes as [He Hes].
  cbn [fold_left map]; apply (IH Hes), agree_fully_step; [| exact H].
  cbn; now rewrite He.
Qed.

(** C9.  Run on the same events (the same input typed, the same answers of
    the API), the version with the chart and [script.js] issue the same
    requests and suspend the same calls (the same validation decisions),
    compute the conversion by the same function, and show the same result
    fields and the same regions.  They differ in the chart only: when it
    cannot be made the version with the chart shows the error as well; when
    it can always be made the two pages and the two consoles are equal. *)
Theorem versions_agree_on_the_conversion :
  forall es : list Widget.Event,
    let w := Widget.run es in
    let s := Script.run (map forget_chart es) in
    Widget.fetched w = Script.fetched s /\
    Widget.pending w = Script.pending s /\
    (originalAmountSpan (Widget.dom w) = originalAmountSpan (Script.dom s) /\
     targetCurrencySpan (Widget.dom w) = targetCurrencySpan (Script.dom s) /\
     exchangeRateSpan (Widget.dom w) = exchangeRateSpan (Script.dom s) /\
     convertedAmountSpan (Widget.dom w) = convertedAmountSpan (Script.dom s) /\
     updateDateSpan (Widget.dom w) = updateDateSpan (Script.dom s)) /\
    (resultDiv_hidden (Widget.dom w) = resultDiv_hidden (Script.dom s) /\
     loadingDiv_hidden (Widget.dom w) = loadingDiv_hidden (Script.dom s) /\
     convertBtn_disabled (Widget.dom w) = convertBtn_disabled (Script.dom s)) /\
    besides_error (Widget.dom w) = besides_error (Script.dom s) /\
    (chart_never_throws es = true ->
       Widget.dom w = Script.dom s /\ Widget.console w = Script.console s) /\
    (forall amount rate currency,
       Widget.calculateConversion amount rate currency
       = Script.calculateConversion amount rate currency) /\
    (forall amount currency,
       Widget.formatConvertedAmount amount currency
       = Script.formatConvertedAmount amount currency).
Proof.
  intros es w s.
  assert (H : agree w s).
  { apply agree_fold; repeat split. }
  destruct H as [Hd [Hp Hf]].
  split; [exact Hf |]. split; [exact Hp |].
  split.
  { repeat split;
      [ apply (f_equal originalAmountSpan) in Hd
      | apply (f_equal targetCurrencySpan) in Hd
      | apply (f_equal exchangeRateSpan) in Hd
      | apply (f_equal convertedAmountSpan) in Hd
      | apply (f_equal updateDateSpan) in Hd ]; exact Hd. }
  split.
  { repeat split;
      [ apply (f_equal resultDiv_hidden) in Hd
      | apply (f_equal loadingDiv_hidden) in Hd
      | apply (f_equal convertBtn_disabled) in Hd ]; exact Hd. }
  split; [exact Hd |].
  split; [| split; intros; reflexivity].
  intros Hes.
  assert (H : agree_fully w s).
  { apply agree_fully_fold; [exact Hes | repeat split]. }
  destruct H as [Hd' [_ [_ Hk]]]; now split.
Qed.

End TwoVersions.

(* ================================================================== *)
(** * The properties at work on the example session                    *)
(* ================================================================== *)

#[local] Existing Instance Reference.platform.

(** 1000 pesos at 900 pesos a dollar: the hypotheses of C1 hold of the
    filled form, and the amount shown is USD 1,11. *)
Lemma converted_amount_example :
  let st := Example.filled in
  let st2 := Widget.settle 0 Example.answer false
               (Widget.handleConversion st) in
  JS.ltb JS.zero (JS.parseFloat (amountInput_value (Widget.dom st))) = true /\
  convertedAmountSpan (Widget.dom st2)
  = Widget.formatConvertedAmount
      (JS.div (JS.of_Z 1000) (JS.of_Z 900)) "dolar" /\
  convertedAmountSpan (Widget.dom st2) = "USD 1,11".
Proof.
  cbv zeta.
  split; [vm_compute; reflexivity |].
  split; [| vm_compute; reflexivity].
  refine (proj1 (proj2
    (converted_amount_is_amount_over_latest_rate
       Example.filled "dolar"
       {| fecha := "2024-01-03"; valor := JS.of_Z 900 |}
       [ {| fecha := "2024-01-02"; valor := JS.of_Z 890 |};
         {| fecha := "2024-01-01"; valor := JS.of_Z 880 |} ]
       200%nat false _ _ _ _))).
  - vm_compute; reflexivity.
  - left; reflexivity.
  - reflexivity.
  - reflexivity.
Defined.

(** A negative amount: the hypothesis of C2 holds, a message is shown and
    nothing is requested. *)
Lemma invalid_submission_example :
  JS.leb (JS.parseFloat (amountInput_value (Widget.dom Example.negative))) JS.zero = true /\
  exists message : string,
    (message = validation_amount \/ message = validation_currency) /\
    Widget.handleConversion Example.negative
    = Widget.showError message Example.negative /\
    Widget.fetched (Widget.handleConversion Example.negative)
    = Widget.fetched Example.negative /\
    Widget.pending (Widget.handleConversion Example.negative)
    = Widget.pending Example.negative /\
    errorDiv_hidden (Widget.dom (Widget.handleConversion Example.negative))
    = false /\
    errorDiv_p (Widget.dom (Widget.handleConversion Example.negative))
    = message.
Proof.
  split; [vm_compute; reflexivity |].
  apply (invalid_submission_is_rejected Example.negative).
  right; left; vm_compute; reflexivity.
Defined.

(** A status 500 and a body without [serie]: both are failures in the sense
    of C4, and the pages they leave are equal. *)
Lemma request_failures_example :
  let r1 := Response 500 (Json (Some Example.serie)) in
  let r2 := Response 200 (Json None) in
  let s1 := Widget.convertCurrency (JS.of_Z 1000) "dolar" r1 false
              Example.filled in
  let s2 := Widget.convertCurrency (JS.of_Z 1000) "dolar" r2 false
              Example.filled in
  (bad_status r1 || no_data r1)%bool = true /\
  (bad_status r2 || no_data r2)%bool = true /\
  Widget.dom s1 = Widget.dom s2 /\
  errorDiv_p (Widget.dom s1) = generic_error /\
  Widget.console s1 = [ApiError 500] /\
  Widget.console s2 = [NoData].
Proof.
  cbv zeta.
  split; [reflexivity |]. split; [reflexivity |].
  pose proof (request_failures_are_indistinguishable
                (JS.of_Z 1000) "dolar"
                (Response 500 (Json (Some Example.serie))) (Response 200 (Json None))
                false false Example.filled eq_refl eq_refl) as H.
  cbv zeta in H.
  destruct H as [_ [Hmsg [_ [_ [_ [Hdom _]]]]]].
  split; [exact Hdom |]. split; [exact Hmsg |].
  split; vm_compute; reflexivity.
Defined.


(** Against C8 as stated: a submission that fails validation after a
    conversion shows the error while the result and the chart are shown. *)
Lemma validation_error_next_to_result :
  let st := Widget.run Example.resubmitted in
  errorDiv_hidden (Widget.dom st) = false /\
  errorDiv_p (Widget.dom st) = validation_amount /\
  resultDiv_hidden (Widget.dom st) = false /\
  Widget.chartSection_hidden st = false.
Proof.
  cbv zeta; repeat split; vm_compute; reflexivity.
Qed.

(** The session of the spec, run: the result fields and the chart. *)
Example session_of_the_spec :
  let st := Widget.run Example.converted in
  originalAmountSpan (Widget.dom st) = "1.000" /\
  exchangeRateSpan (Widget.dom st) = "900" /\
  convertedAmountSpan (Widget.dom st) = "USD 1,11" /\
  option_map Widget.chart_points (Widget.currencyChart st)
  = Some [ ("01-01", JS.of_Z 880); ("02-01", JS.of_Z 890); ("03-01", JS.of_Z 900) ] /\
  Widget.fetched st = ["https://mindicador.cl/api/dolar"].
Proof.
  cbv zeta; repeat split; vm_compute; reflexivity.
Qed.

(* ================================================================== *)
(** * Further properties of the script                                 *)
(* ================================================================== *)

(** The test [!amount || amount <= 0] fails exactly the numbers that are
    not above zero. *)
Lemma validation_test (a : JS.Number) :
  (negb (JS.ToBoolean a) || JS.leb a JS.zero)%bool = negb (JS.ltb JS.zero a).
Proof.
  destruct a as [s|s| |s m e]; try destruct s; reflexivity.
Qed.

Lemma last3Days_length (serie : list Observation) :
  List.length (Widget.last3Days serie) = Nat.min 3 (List.length serie).
Proof.
  unfold Widget.last3Days; now rewrite length_rev, length_firstn.
Qed.

Lemma last3Days_newest (latest : Observation) (rest : list Observation) :
  Widget.last3Days (latest :: rest)
  = (rev (firstn 2 rest) ++ [latest])%list.
Proof. reflexivity. Qed.

Section WidgetConsistency.
Context {P : Platform}.

Import Widget.

Lemma chart_points_new (n : nat) (label : string) (l : list Observation) :
  chart_points
    (new_Chart n (map (fun item => toLocaleDateString_short (fecha item)) l)
               label (map (fun item => valor item) l))
  = map point l.
Proof. unfold chart_points; cbn; apply combine_map_pair. Qed.

Lemma new_chart_wellformed (n : nat) (label : string) (latest : Observation)
    (rest : list Observation) :
  chart_wellformed
    (new_Chart n
       (map (fun item => toLocaleDateString_short (fecha item)) (last3Days (latest :: rest)))
       label
       (map (fun item => valor item) (last3Days (latest :: rest)))).
Proof.
  unfold chart_wellformed, new_Chart; cbn [chart_labels dataset_data].
  rewrite !length_map, last3Days_length; cbn [List.length]; lia.
Qed.

Lemma consistent_initial : consistent initial.
Proof.
  constructor; cbn; try constructor; try discriminate.
Qed.

Lemma Forall_remove_nth {A : Type} (Q : A -> Prop) (k : nat) :
  forall l, Forall Q l -> Forall Q (remove_nth k l).
Proof.
  induction k as [|k IH]; intros [|x l] H; cbn; try constructor;
    inversion H; subst; auto.
Qed.

Lemma consistent_showError (message : string) (st : State) :
  consistent st -> consistent (showError message st).
Proof.
  intros [C1 C2 C3 C4 C5]; constructor; cbn; auto.
Qed.

Lemma consistent_begin (amount : JS.Number) (currency : string) (st : State) :
  validated (amount, currency) ->
  consistent st -> consistent (convertCurrency_begin amount currency st).
Proof.
  intros Hv [C1 C2 C3 C4 C5]; constructor; cbn [dom pending fetched currencyChart
    chartSection_hidden convertCurrency_begin hideChart hideResult hideError showLoading
    with_dom set_chartSection_hidden resultDiv_hidden set_resultDiv_hidden
    set_errorDiv_hidden set_loading]; auto; try discriminate.
  - apply Forall_app; split; [exact C1 | constructor; [exact Hv | constructor]].
  - apply Forall_app; split; [exact C2 |].
    constructor; [| constructor].
    exists currency; split; [exact (proj2 Hv) | reflexivity].
Qed.

Lemma consistent_resume (amount : JS.Number) (currency : string) (r : Settled)
    (chart_throws : bool) (st : State) :
  validated (amount, currency) ->
  chartSection_hidden st = true ->
  Widget.alive st = [] \/ (exists c, currencyChart st = Some c /\ Widget.alive st = [c]) ->
  consistent st ->
  consistent (convertCurrency_resume amount currency r chart_throws st).
Proof.
  intros Hv Hhidden Halive [C1 C2 C3 C4 C5].
  pose proof (fun c => destroy_current st c Halive) as Hfilter.
  destruct (resume_cases amount currency r chart_throws st)
    as [[_ [e ->]] | [_ [latest [rest [status [st' [-> [Hmade Hthrown]]]]]]]].
  - constructor; cbn; auto.
  - destruct chart_throws.
    + destruct (Hthrown eq_refl) as [Hcreate ->]; clear Hmade Hthrown.
      unfold createChart in Hcreate.
      cbn [currencyChart displayResult showResult with_dom] in Hcreate.
      destruct (currencyChart st) as [c|] eqn:Hc; injection Hcreate as <-;
        constructor; cbn; rewrite ?Hhidden, ?Hc; auto; try discriminate;
        intros _; exists amount, currency, latest; (split; [exact Hv |]);
        repeat split.
    + destruct (Hmade eq_refl) as [Hcreate ->]; clear Hmade Hthrown.
      unfold createChart in Hcreate.
      cbn [currencyChart displayResult showResult with_dom] in Hcreate.
      destruct (currencyChart st) as [c|] eqn:Hc; injection Hcreate as <-;
        constructor; cbn; rewrite ?(Hfilter c eq_refl); auto.
      all: try (intros _; exists amount, currency, latest; (split; [exact Hv |]);
                repeat split; fail).
      all: try (intros c0 H0; injection H0 as <-; apply new_chart_wellformed).
      all: intros _; (split; [reflexivity |]);
        exists amount, currency, latest, rest; eexists;
        (split; [repeat split |]); (split; [reflexivity |]).
      * split; [reflexivity |]. split; [apply chart_points_new | reflexivity].
      * destruct Halive as [Ha | [c' [Hc' _]]]; [| discriminate].
        rewrite Ha; split; [reflexivity |].
        split; [apply chart_points_new | reflexivity].
Qed.

Lemma consistent_step (st : State) (e : Event) :
  invariant st -> consistent st -> consistent (step st e).
Proof.
  intros I C; destruct e as [|k r chart_throws|v|v|]; cbn [step].
  - destruct (convertBtn_disabled (dom st)); [exact C |].
    unfold handleConversion; rewrite validation_test.
    destruct (JS.ltb JS.zero _) eqn:Hpos; cbn [negb];
      [| now apply consistent_showError].
    destruct (String.eqb_spec (currencySelect_value (dom st)) "") as [_ | Hcur];
      [now apply consistent_showError |].
    apply consistent_begin; [split; assumption | exact C].
  - unfold settle.
    destruct (nth_error (pending st) k) as [[amount currency]|] eqn:Hk; [| exact C].
    assert (Hflight : in_flight st = true).
    { unfold in_flight; destruct (pending st); [destruct k; discriminate | reflexivity]. }
    apply consistent_resume.
    + pose proof (con_pending st C) as Hall; rewrite Forall_forall in Hall.
      apply Hall, (nth_error_In _ _ Hk).
    + exact (inv_chart st I Hflight).
    + exact (inv_alive st I).
    + destruct C as [C1 C2 C3 C4 C5]; constructor; cbn; auto.
      now apply Forall_remove_nth.
  - destruct C as [C1 C2 C3 C4 C5]; constructor; cbn; auto.
  - destruct C as [C1 C2 C3 C4 C5].
    unfold currencySelect_change, dispose_chart.
    cbn [currencyChart hideChart hideError with_dom set_chartSection_hidden].
    destruct (currencyChart st) as [c|] eqn:Hc; constructor; cbn; auto;
      try discriminate; rewrite ?Hc; auto.
  - destruct C as [C1 C2 C3 C4 C5].
    unfold clearForm, dispose_chart.
    cbn [currencyChart hideChart hideError hideResult with_dom set_chartSection_hidden].
    destruct (currencyChart st) as [c|] eqn:Hc; constructor; cbn; auto;
      try discriminate; rewrite ?Hc; auto.
Qed.

Lemma consistent_run (es : list Event) : consistent (run es).
Proof.
  induction es as [|e es IH] using rev_ind; [exact consistent_initial |].
  rewrite run_snoc; apply consistent_step; [| exact IH].
  apply invariant_reachable, reachable_run.
Qed.

End WidgetConsistency.

Section WidgetSubmission.
Context {P : Platform}.

Import Widget.

(** ** What a submission does *)

(** X1.  [handleConversion] accepts a submission exactly when the amount
    parses to a number above zero and the currency is not empty: it then
    starts [convertCurrency] with that amount and that currency, whatever
    the currency is.  The amounts it turns down are NaN and the numbers that
    are [<= 0].  [script.js] decides in the same way. *)
Theorem validation_accepts_exactly_positive_amounts :
  forall (w : Widget.State) (s : Script.State),
    Widget.handleConversion w
    = (if JS.ltb JS.zero (JS.parseFloat (amountInput_value (Widget.dom w))) then
         if String.eqb (currencySelect_value (Widget.dom w)) "" then
           Widget.showError validation_currency w
         else
           Widget.convertCurrency_begin
             (JS.parseFloat (amountInput_value (Widget.dom w)))
             (currencySelect_value (Widget.dom w)) w
       else Widget.showError validation_amount w) /\
    Script.handleConversion s
    = (if JS.ltb JS.zero (JS.parseFloat (amountInput_value (Script.dom s))) then
         if String.eqb (currencySelect_value (Script.dom s)) "" then
           Script.showError validation_currency s
         else
           Script.convertCurrency_begin
             (JS.parseFloat (amountInput_value (Script.dom s)))
             (currencySelect_value (Script.dom s)) s
       else Script.showError validation_amount s) /\
    (forall a : JS.Number,
        JS.ltb JS.zero a = false <-> a = JS.NaN \/ JS.leb a JS.zero = true).
Proof.
  intros w s.
  split; [unfold Widget.handleConversion | split; [unfold Script.handleConversion |]].
  - rewrite validation_test; destruct (JS.ltb JS.zero _); reflexivity.
  - rewrite validation_test; destruct (JS.ltb JS.zero _); reflexivity.
  - intros a; destruct a as [sg|sg| |sg m e]; try destruct sg; cbn; split;
      try tauto; try discriminate; intros [H | H]; discriminate.
Qed.

(** X2.  The rate is not guarded.  When the newest observation has the value
    zero, the conversion of an amount above zero is an infinity with the
    sign of that zero; it is displayed as a result, and nothing is thrown,
    logged or shown as an error. *)
Theorem zero_rate_gives_infinity :
  forall (amount : JS.Number) (currency : string) (latest : Observation)
         (rest : list Observation) (status : nat) (sign : bool) (st : State),
    JS.ltb JS.zero amount = true ->
    valor latest = S754_zero sign ->
    ok status = true ->
    let st' := convertCurrency_resume amount currency
                 (Response status (Json (Some (latest :: rest)))) false st in
    calculateConversion amount (valor latest) currency = S754_infinity sign /\
    convertedAmountSpan (dom st')
    = formatConvertedAmount (S754_infinity sign) currency /\
    resultDiv_hidden (dom st') = false /\
    errorDiv_hidden (dom st') = errorDiv_hidden (dom st) /\
    console st' = console st.
Proof.
  intros amount currency latest rest status sign st Hpos Hzero Hok st'.
  assert (Hdiv : calculateConversion amount (valor latest) currency = S754_infinity sign).
  { unfold calculateConversion, JS.div; rewrite Hzero.
    destruct amount as [sg|sg| |sg m e]; try destruct sg; try discriminate; reflexivity. }
  split; [exact Hdiv |].
  subst st'; unfold convertCurrency_resume, convertCurrency_try, createChart.
  rewrite Hok; cbn [negb].
  cbn [currencyChart displayResult showResult with_dom].
  destruct (currencyChart st); cbn; rewrite Hdiv; repeat split.
Qed.

Lemma fetched_resume (amount : JS.Number) (currency : string) (r : Settled)
    (chart_throws : bool) (st : State) :
  fetched (convertCurrency_resume amount currency r chart_throws st) = fetched st.
Proof.
  destruct (resume_cases amount currency r chart_throws st)
    as [[_ [e ->]] | [_ [latest [rest [status [st' [-> [Hmade Hthrown]]]]]]]];
    [reflexivity |].
  destruct chart_throws;
    [destruct (Hthrown eq_refl) as [Hcreate ->] | destruct (Hmade eq_refl) as [Hcreate ->]];
    clear Hmade Hthrown; unfold createChart in Hcreate;
    cbn [currencyChart displayResult showResult with_dom] in Hcreate;
    destruct (currencyChart st); injection Hcreate as <-; reflexivity.
Qed.

(** X3.  Requests are made by submissions only, one at a time and never
    again for the same submission: every URL requested is the API's base
    followed by a currency code that is not empty; a submission adds at most
    one URL, that of the selected currency, and only for an amount above
    zero; no other event (a request that settles, failed or not, an edit,
    [clearForm]) adds any. *)
Theorem requests_come_from_submissions :
  forall (es : list Event),
    let st := run es in
    Forall request_url (fetched st) /\
    (fetched (step st SubmitForm) = fetched st \/
     (JS.ltb JS.zero (JS.parseFloat (amountInput_value (dom st))) = true /\
      currencySelect_value (dom st) <> "" /\
      fetched (step st SubmitForm)
      = (fetched st
           ++ [(API_URL ++ "/" ++ currencySelect_value (dom st))%string])%list)) /\
    (forall k r t, fetched (step st (Settle k r t)) = fetched st) /\
    (forall v, fetched (step st (AmountInput v)) = fetched st) /\
    (forall v, fetched (step st (CurrencyChange v)) = fetched st) /\
    fetched (step st ClearForm) = fetched st.
Proof.
  intros es st.
  split; [apply (con_fetched st), consistent_run |].
  split.
  { cbn [step]; destruct (convertBtn_disabled (dom st)); [now left |].
    unfold handleConversion; rewrite validation_test.
    destruct (JS.ltb JS.zero _) eqn:Hpos; cbn [negb]; [| now left].
    destruct (String.eqb_spec (currencySelect_value (dom st)) "") as [_ | Hcur];
      [now left |].
    right; repeat split; assumption. }
  split.
  { intros k r t; cbn [step]; unfold settle.
    destruct (nth_error (pending st) k) as [[amount currency]|]; [| reflexivity].
    now rewrite fetched_resume. }
  split; [reflexivity |].
  split.
  { intros v; cbn [step]; unfold currencySelect_change, dispose_chart.
    cbn [currencyChart hideChart hideError with_dom set_chartSection_hidden].
    destruct (currencyChart st); reflexivity. }
  cbn [step]; unfold clearForm, dispose_chart.
  cbn [currencyChart hideChart hideError hideResult with_dom set_chartSection_hidden].
  destruct (currencyChart st); reflexivity.
Qed.

(** X4.  There is never more than one conversion going on.  While one is,
    the submit control is disabled and a submission changes nothing; the
    call that is suspended carries an amount above zero and a currency that
    is not empty. *)
Theorem one_conversion_at_a_time :
  forall (es : list Event),
    let st := run es in
    (List.length (pending st) <= 1)%nat /\
    (convertBtn_disabled (dom st) = true <-> pending st <> []) /\
    (pending st <> [] -> step st SubmitForm = st) /\
    Forall validated (pending st).
Proof.
  intros es st.
  pose proof (invariant_reachable st (reachable_run es)) as I.
  assert (Hbtn : convertBtn_disabled (dom st) = true <-> pending st <> []).
  { rewrite (inv_button st I); unfold in_flight.
    destruct (pending st); split; congruence. }
  split; [exact (inv_pending st I) |].
  split; [exact Hbtn |].
  split; [| apply (con_pending st), consistent_run].
  intros H; apply Hbtn in H; cbn [step]; now rewrite H.
Qed.

(** X5.  Whatever the [try] block throws is caught once: the cause is
    written to the console and the generic message is shown.  The console,
    unlike the page, tells the causes apart: the status of a bad response,
    the missing data, the rejected fetch, the body that is not JSON, the
    chart that could not be made.  A conversion that succeeds writes
    nothing and leaves the error region as it was. *)
Theorem failure_cause_is_logged :
  forall (amount : JS.Number) (currency : string) (r : Settled)
         (chart_throws : bool) (st : State),
    let st' := convertCurrency_resume amount currency r chart_throws st in
    ((console st' = console st /\
      errorDiv_hidden (dom st') = errorDiv_hidden (dom st) /\
      errorDiv_p (dom st') = errorDiv_p (dom st)) \/
     (exists e, console st' = (console st ++ [e])%list /\
                errorDiv_hidden (dom st') = false /\
                errorDiv_p (dom st') = generic_error)) /\
    (succeeds r = true -> chart_throws = false -> console st' = console st) /\
    (succeeds r = true -> chart_throws = true ->
       console st' = (console st ++ [ChartError])%list) /\
    (forall status body, r = Response status body -> ok status = false ->
       console st' = (console st ++ [ApiError status])%list) /\
    (no_data r = true -> console st' = (console st ++ [NoData])%list) /\
    (r = Rejected -> console st' = (console st ++ [FetchFailed])%list) /\
    (forall status, r = Response status NotJson -> ok status = true ->
       console st' = (console st ++ [BodySyntaxError])%list).
Proof.
  intros amount currency r chart_throws st st'; subst st'.
  unfold convertCurrency_resume, convertCurrency_try, createChart.
  destruct r as [|status [|[[|latest rest]|]]]; cbn [succeeds no_data].
  - split; [right; eexists; repeat split |].
    repeat split; try discriminate; intros; try discriminate; reflexivity.
  - destruct (ok status) eqn:Hok; cbn [negb];
      (split; [right; eexists; repeat split |]);
      repeat split; try discriminate; intros; try discriminate; try reflexivity;
      match goal with
      | H : Response _ _ = Response _ _ |- _ => injection H as <-
      end; try congruence; reflexivity.
  - destruct (ok status) eqn:Hok; cbn [negb];
      (split; [right; eexists; repeat split |]);
      repeat split; try discriminate; intros; try discriminate; try reflexivity;
      match goal with
      | H : Response _ _ = Response _ _ |- _ => injection H as <- <-
      end; try congruence; reflexivity.
  - destruct (ok status) eqn:Hok; cbn [negb].
    + cbn [currencyChart displayResult showResult with_dom].
      destruct chart_throws, (currencyChart st); cbn;
        (split; [first [left; repeat split; fail | right; eexists; repeat split] |]);
        repeat split; try discriminate; intros; try discriminate; try reflexivity;
        match goal with
        | H : Response _ _ = Response _ _ |- _ => injection H as <- <-
        end; congruence.
    + (split; [right; eexists; repeat split |]);
        repeat split; try discriminate; intros; try discriminate; try reflexivity;
        match goal with
        | H : Response _ _ = Response _ _ |- _ => injection H as <- <-
        end; try congruence; reflexivity.
  - destruct (ok status) eqn:Hok; cbn [negb];
      (split; [right; eexists; repeat split |]);
      repeat split; try discriminate; intros; try discriminate; try reflexivity;
      match goal with
      | H : Response _ _ = Response _ _ |- _ => injection H as <- <-
      end; try congruence; reflexivity.
Qed.

End WidgetSubmission.

Section WidgetDisplay.
Context {P : Platform}.

Import Widget.

(** ** What the page shows *)

(** X6.  A result on the page is always the result of one conversion that
    passed validation: the five fields are those [displayResult] writes for
    one amount above zero, one currency that is not empty and one
    observation.  The chart region is never shown without the result
    region. *)
Theorem shown_result_is_one_validated_conversion :
  forall (es : list Event),
    let st := run es in
    (resultDiv_hidden (dom st) = false ->
       exists amount currency latest,
         validated (amount, currency) /\ displays (dom st) amount currency latest) /\
    (chartSection_hidden st = false -> resultDiv_hidden (dom st) = false).
Proof.
  intros es st; pose proof (consistent_run es) as C.
  split; [exact (con_result st C) |].
  intros H; exact (proj1 (con_shown st C H)).
Qed.

(** X7.  A chart on the page belongs to the result on the page: when the
    chart region is shown, the chart [currencyChart] holds is alive, it is
    drawn from the series whose newest observation gave the displayed rate,
    that observation is its last point, and its dataset is labelled with the
    displayed currency.  Every chart the script holds has one to three
    points, a label for each value. *)
Theorem shown_chart_belongs_to_shown_result :
  forall (es : list Event),
    let st := run es in
    (chartSection_hidden st = false ->
       exists amount currency latest older c,
         displays (dom st) amount currency latest /\
         currencyChart st = Some c /\ Widget.alive st = [c] /\
         chart_points c = (older ++ [point latest])%list /\
         (List.length older <= 2)%nat /\
         dataset_label c
         = "Valor en CLP - " ++ ToString (JS.Get currencyNames currency)) /\
    (forall c, currencyChart st = Some c -> chart_wellformed c).
Proof.
  intros es st; pose proof (consistent_run es) as C.
  split; [| exact (con_chart st C)].
  intros H.
  destruct (con_shown st C H)
    as [_ [amount [currency [latest [rest [c [Hd [Hc [Ha [Hpoints Hlabel]]]]]]]]]].
  exists amount, currency, latest, (map point (rev (firstn 2 rest))), c.
  split; [exact Hd |]. split; [exact Hc |]. split; [exact Ha |].
  split; [rewrite Hpoints, last3Days_newest, map_app; reflexivity |].
  split; [rewrite length_map, length_rev, length_firstn; lia | exact Hlabel].
Qed.

(** ** [clearForm] *)

(** X8.  [clearForm] empties the two form fields, hides the result, error
    and chart regions and destroys the chart; it leaves the five result
    fields and the text of the error as they are, and neither the loading
    indicator nor a pending request is touched: a conversion in flight is
    not cancelled.  Clearing twice is clearing once.  The [clearForm] of
    [script.js] does the same on its page, which has no chart. *)
Theorem clearForm_resets_the_page :
  forall (st : State) (s : Script.State),
    let st' := clearForm st in
    let s' := Script.clearForm s in
    (amountInput_value (dom st') = "" /\ currencySelect_value (dom st') = "") /\
    (resultDiv_hidden (dom st') = true /\ errorDiv_hidden (dom st') = true /\
     chartSection_hidden st' = true) /\
    (currencyChart st' = None /\
     forall c, currencyChart st = Some c -> ~ In c (Widget.alive st')) /\
    (convertedAmountSpan (dom st') = convertedAmountSpan (dom st) /\
     exchangeRateSpan (dom st') = exchangeRateSpan (dom st)) /\
    (originalAmountSpan (dom st') = originalAmountSpan (dom st) /\
     targetCurrencySpan (dom st') = targetCurrencySpan (dom st) /\
     updateDateSpan (dom st') = updateDateSpan (dom st) /\
     errorDiv_p (dom st') = errorDiv_p (dom st)) /\
    (pending st' = pending st /\
     loadingDiv_hidden (dom st') = loadingDiv_hidden (dom st) /\
     convertBtn_disabled (dom st') = convertBtn_disabled (dom st)) /\
    clearForm st' = st' /\
    (Script.dom s'
     = set_errorDiv_hidden true
         (set_resultDiv_hidden true
            (set_currencySelect_value "" (set_amountInput_value "" (Script.dom s)))) /\
     (amountInput_value (Script.dom s') = "" /\
      currencySelect_value (Script.dom s') = "" /\
      resultDiv_hidden (Script.dom s') = true /\
      errorDiv_hidden (Script.dom s') = true) /\
     (originalAmountSpan (Script.dom s') = originalAmountSpan (Script.dom s) /\
      targetCurrencySpan (Script.dom s') = targetCurrencySpan (Script.dom s) /\
      exchangeRateSpan (Script.dom s') = exchangeRateSpan (Script.dom s) /\
      convertedAmountSpan (Script.dom s') = convertedAmountSpan (Script.dom s) /\
      updateDateSpan (Script.dom s') = updateDateSpan (Script.dom s) /\
      errorDiv_p (Script.dom s') = errorDiv_p (Script.dom s)) /\
     (Script.pending s' = Script.pending s /\
      Script.fetched s' = Script.fetched s /\
      loadingDiv_hidden (Script.dom s') = loadingDiv_hidden (Script.dom s) /\
      convertBtn_disabled (Script.dom s') = convertBtn_disabled (Script.dom s)) /\
     Script.clearForm s' = s').
Proof.
  intros st s st' s'; subst st' s'.
  assert (Hscript :
            Script.dom (Script.clearForm s)
            = set_errorDiv_hidden true
                (set_resultDiv_hidden true
                   (set_currencySelect_value "" (set_amountInput_value "" (Script.dom s)))) /\
            (amountInput_value (Script.dom (Script.clearForm s)) = "" /\
             currencySelect_value (Script.dom (Script.clearForm s)) = "" /\
             resultDiv_hidden (Script.dom (Script.clearForm s)) = true /\
             errorDiv_hidden (Script.dom (Script.clearForm s)) = true) /\
            (originalAmountSpan (Script.dom (Script.clearForm s))
             = originalAmountSpan (Script.dom s) /\
             targetCurrencySpan (Script.dom (Script.clearForm s))
             = targetCurrencySpan (Script.dom s) /\
             exchangeRateSpan (Script.dom (Script.clearForm s))
             = exchangeRateSpan (Script.dom s) /\
             convertedAmountSpan (Script.dom (Script.clearForm s))
             = convertedAmountSpan (Script.dom s) /\
             updateDateSpan (Script.dom (Script.clearForm s))
             = updateDateSpan (Script.dom s) /\
             errorDiv_p (Script.dom (Script.clearForm s)) = errorDiv_p (Script.dom s)) /\
            (Script.pending (Script.clearForm s) = Script.pending s /\
             Script.fetched (Script.clearForm s) = Script.fetched s /\
             loadingDiv_hidden (Script.dom (Script.clearForm s))
             = loadingDiv_hidden (Script.dom s) /\
             convertBtn_disabled (Script.dom (Script.clearForm s))
             = convertBtn_disabled (Script.dom s)) /\
            Script.clearForm (Script.clearForm s) = Script.clearForm s).
  { repeat split. }
  unfold clearForm, dispose_chart.
  cbn [currencyChart hideChart hideError hideResult with_dom set_chartSection_hidden].
  destruct (currencyChart st) as [c|] eqn:Hc; cbn; rewrite ?Hc;
    (split; [split; reflexivity |]);
    (split; [repeat split |]);
    (split; [split; [reflexivity |] |]).
  - intros c' Hc' Hin; injection Hc' as <-.
    apply filter_In in Hin; destruct Hin as [_ Hneq].
    now rewrite Nat.eqb_refl in Hneq.
  - split; [split; reflexivity |].
    split; [repeat split |].
    split; [repeat split |].
    split; [reflexivity | exact Hscript].
  - discriminate.
  - split; [split; reflexivity |].
    split; [repeat split |].
    split; [repeat split |].
    split; [reflexivity | exact Hscript].
Qed.

(** ** Submitting twice *)

Lemma convertCurrency_failed (amount : JS.Number) (currency : string) (r : Settled)
    (chart_throws : bool) (st : State) :
  succeeds r = false ->
  exists e,
    convertCurrency amount currency r chart_throws st
    = hideLoading (showError generic_error
        (console_error e (set_pending (pending st)
                            (convertCurrency_begin amount currency st)))).
Proof.
  intros H; unfold convertCurrency; rewrite settle_issued.
  now apply failed_resume.
Qed.

(** The state in which [createChart] constructs the chart: the result is
    displayed and the chart of before is destroyed. *)
Lemma convertCurrency_succeeded (amount : JS.Number) (currency : string)
    (latest : Observation) (rest : list Observation) (status : nat)
    (chart_throws : bool) (st : State) :
  ok status = true ->
  exists st1,
    dom st1 = set_resultDiv_hidden false
                (set_spans (formatNumber amount 0)
                   (textContent (JS.Get currencyNames currency))
                   (formatNumber (valor latest) 0)
                   (formatConvertedAmount (JS.div amount (valor latest)) currency)
                   (toLocaleDateString_es_CL (fecha latest))
                   (set_resultDiv_hidden true
                      (set_errorDiv_hidden true (set_loading false true (dom st))))) /\
    chartSection_hidden st1 = true /\
    currencyChart st1 = currencyChart st /\
    Widget.alive st1
    = match currencyChart st with
      | Some c => filter (fun x => negb (Nat.eqb (chart_id x) (chart_id c))) (Widget.alive st)
      | None => Widget.alive st
      end /\
    made st1 = made st /\
    fetched st1 = (fetched st ++ [(API_URL ++ "/" ++ currency)%string])%list /\
    convertCurrency amount currency (Response status (Json (Some (latest :: rest))))
      chart_throws st
    = if chart_throws then
        hideLoading (showError generic_error (console_error ChartError st1))
      else
        let chart :=
          new_Chart (made st1)
            (map (fun item => toLocaleDateString_short (fecha item))
                 (last3Days (latest :: rest)))
            ("Valor en CLP - " ++ ToString (JS.Get currencyNames currency))
            (map (fun item => valor item) (last3Days (latest :: rest))) in
        hideLoading (showChart (set_charts (Some chart) (chart :: Widget.alive st1)
                                           (S (made st1)) st1)).
Proof.
  intros Hok; unfold convertCurrency; rewrite settle_issued.
  unfold convertCurrency_resume, convertCurrency_try, createChart; rewrite Hok.
  cbn [negb].
  set (st0 := displayResult amount currency (valor latest)
                (calculateConversion amount (valor latest) currency)
                (toLocaleDateString_es_CL (fecha latest))
                (set_pending (pending st) (convertCurrency_begin amount currency st))).
  exists (match currencyChart st with Some c => destroy c st0 | None => st0 end).
  repeat split;
    try (destruct (currencyChart st) as [c|] eqn:Hc; cbn; rewrite ?Hc; reflexivity).
  destruct chart_throws; reflexivity.
Qed.

(** X11.  A conversion does not depend on what the page showed before:
    running [convertCurrency] a second time with the same amount, currency
    and answer leaves every element of the page as the first run left it.
    The request is made again (nothing is cached), and when the conversion
    succeeds the chart is replaced by a new one with the same points. *)
Theorem converting_twice_shows_the_same_page :
  forall (amount : JS.Number) (currency : string) (r : Settled)
         (chart_throws : bool) (st : State),
    let s1 := convertCurrency amount currency r chart_throws st in
    let s2 := convertCurrency amount currency r chart_throws s1 in
    dom s2 = dom s1 /\
    chartSection_hidden s2 = chartSection_hidden s1 /\
    fetched s2 = (fetched s1 ++ [(API_URL ++ "/" ++ currency)%string])%list /\
    (succeeds r = true -> chart_throws = false ->
       exists c1 c2,
         currencyChart s1 = Some c1 /\ currencyChart s2 = Some c2 /\
         chart_points c2 = chart_points c1 /\
         dataset_label c2 = dataset_label c1 /\
         chart_id c2 = S (chart_id c1) /\
         ~ In c1 (Widget.alive s2)).
Proof.
  intros amount currency r chart_throws st s1 s2.
  destruct (succeeds r) eqn:Hr.
  - destruct r as [|status [|[[|latest rest]|]]]; try discriminate.
    cbn in Hr.
    destruct (convertCurrency_succeeded amount currency latest rest status
                chart_throws st Hr)
      as [t1 [Hd1 [Hh1 [Hc1 [Ha1 [Hm1 [Hf1 H1]]]]]]].
    destruct (convertCurrency_succeeded amount currency latest rest status
                chart_throws s1 Hr)
      as [t2 [Hd2 [Hh2 [Hc2 [Ha2 [Hm2 [Hf2 H2]]]]]]].
    fold s2 in H2; fold s1 in H1.
    destruct chart_throws.
    + rewrite H2, H1 in *; cbn in *.
      rewrite Hd2, Hd1, Hh2, Hh1, Hf2; repeat split; discriminate.
    + cbv zeta in H1, H2.
      rewrite H1 in Hd2, Hc2, Ha2, Hm2, Hf2; cbn in Hd2, Hc2, Ha2, Hm2, Hf2.
      rewrite Nat.eqb_refl in Ha2; cbn in Ha2.
      rewrite H2, H1; cbn.
      rewrite Hd2, Hd1, Hf2, Ha2, Hm2.
      split; [reflexivity |]. split; [reflexivity |]. split; [reflexivity |].
      intros _ _; do 2 eexists.
      split; [reflexivity |]. split; [reflexivity |].
      split; [reflexivity |]. split; [reflexivity |]. split; [reflexivity |].
      intros [H | H].
      * apply (f_equal chart_id) in H; unfold new_Chart in H; cbn in H; lia.
      * apply filter_In in H; destruct H as [_ H].
        rewrite Nat.eqb_refl in H; discriminate.
  - destruct (convertCurrency_failed amount currency r chart_throws st Hr) as [e1 H1].
    destruct (convertCurrency_failed amount currency r chart_throws s1 Hr) as [e2 H2].
    fold s2 in H2; fold s1 in H1.
    rewrite H2; cbn; rewrite H1; cbn.
    repeat split; discriminate.
Qed.

End WidgetDisplay.

Section WidgetTables.
Context {P : Platform}.

Import Widget.

(** ** The tables of names and colours *)

Lemma not_own_name (currency : string) :
  ~ In currency currency_codes -> JS.GetOwn currencyNames currency = None.
Proof.
  intros Hcode; unfold currencyNames; cbn [JS.GetOwn].
  repeat match goal with
         | |- context [String.eqb ?k currency] =>
             destruct (String.eqb_spec k currency) as [<- | _];
             [exfalso; apply Hcode; unfold currency_codes, In; tauto |]
         end.
  reflexivity.
Qed.

Lemma not_in_prototype (currency : string) :
  ~ In currency JS.ObjectPrototype ->
  existsb (String.eqb currency) JS.ObjectPrototype = false.
Proof.
  intros Hproto.
  destruct (existsb (String.eqb currency) JS.ObjectPrototype) eqn:E; [| reflexivity].
  apply existsb_exists in E; destruct E as [k [Hin Hk]].
  apply String.eqb_eq in Hk; subst k; contradiction.
Qed.

(** X9.  [getCurrencyColors] gives each of the five currencies a palette of
    its own (the five border colours differ from one another and from the
    grey) and every other code the grey palette, except a code that names a
    member of Object.prototype: the [||] keeps that member, and the colours
    read from it are undefined.  In the configuration of the chart the
    points and their hover state take the border colour of the line, and the
    chart [createChart] makes carries the labels and values of that
    configuration. *)
Theorem colours_of_the_chart :
  (forall currency, In currency currency_codes ->
     exists b g, getCurrencyColors currency = Palette b g /\ b <> "#666") /\
  NoDup (map (fun currency => border (getCurrencyColors currency)) currency_codes) /\
  (forall currency,
     ~ In currency currency_codes -> ~ In currency JS.ObjectPrototype ->
     getCurrencyColors currency = Palette "#666" "rgba(102, 102, 102, 0.1)") /\
  (forall currency, In currency JS.ObjectPrototype ->
     getCurrencyColors currency = Member currency /\
     border (getCurrencyColors currency) = JS.Undefined /\
     background (getCurrencyColors currency) = JS.Undefined) /\
  (forall currency serie,
     pointBackgroundColor (chart_config currency serie)
     = borderColor (chart_config currency serie) /\
     hoverBackgroundColor (chart_config currency serie)
     = borderColor (chart_config currency serie) /\
     forall value, y_ticks_callback (chart_config currency serie) value
                   = formatNumber value 2) /\
  (forall currency serie st,
     exists c st',
       createChart currency serie false st = inl st' /\
       currencyChart st' = Some c /\
       chart_labels c = config_labels (chart_config currency serie) /\
       dataset_data c = config_data (chart_config currency serie) /\
       dataset_label c = config_dataset_label (chart_config currency serie)).
Proof.
  split.
  { intros currency H; cbn in H.
    repeat (destruct H as [<- | H]; [do 2 eexists; split; [reflexivity | discriminate] |]).
    contradiction. }
  split.
  { cbn; repeat constructor; cbn; intros H;
      repeat (destruct H as [H | H]; [discriminate |]); exact H. }
  split.
  { intros currency Hcode Hproto; unfold getCurrencyColors.
    assert (Hown : own_property
                     [ ("dolar", Palette "#2e7d32" "rgba(76, 175, 80, 0.1)");
                       ("dolar_intercambio", Palette "#1976d2" "rgba(33, 150, 243, 0.1)");
                       ("euro", Palette "#7b1fa2" "rgba(156, 39, 176, 0.1)");
                       ("uf", Palette "#d32f2f" "rgba(244, 67, 54, 0.1)");
                       ("utm", Palette "#f57c00" "rgba(255, 152, 0, 0.1)") ] currency
                   = None).
    { cbn [own_property].
      repeat match goal with
             | |- context [String.eqb ?k currency] =>
                 destruct (String.eqb_spec k currency) as [<- | _];
                 [exfalso; apply Hcode; unfold currency_codes, In; tauto |]
             end.
      reflexivity. }
    cbv zeta; rewrite Hown, (not_in_prototype currency Hproto); reflexivity. }
  split.
  { intros currency H; cbn in H.
    repeat (destruct H as [<- | H]; [repeat split |]).
    contradiction. }
  split.
  { intros currency serie; repeat split. }
  intros currency serie st; unfold createChart.
  do 2 eexists; split; [reflexivity |]. repeat split.
Qed.

(** X10.  The names have no fallback.  For a code that is neither one of
    the five nor the name of a member of Object.prototype, [displayResult]
    leaves the currency field empty, while the symbol falls back to the
    code in upper case; the dataset of the chart is labelled, and its title
    worded, with the text [undefined]. *)
Theorem unknown_code_has_no_name :
  forall (currency : string),
    ~ In currency currency_codes ->
    ~ In currency JS.ObjectPrototype ->
    (forall amount rate converted date st,
       targetCurrencySpan
         (dom (displayResult amount currency rate converted date st)) = "" /\
       convertedAmountSpan
         (dom (displayResult amount currency rate converted date st))
       = toUpperCase currency ++ " " ++ formatNumber converted 2) /\
    (forall serie,
       config_dataset_label (chart_config currency serie) = "Valor en CLP - undefined" /\
       title_text (chart_config currency serie)
       = "Evolución de undefined - Últimos 3 días").
Proof.
  intros currency Hcode Hproto.
  assert (Hname : JS.Get currencyNames currency = JS.Undefined).
  { unfold JS.Get; now rewrite (not_own_name currency Hcode),
                               (not_in_prototype currency Hproto). }
  split.
  - intros amount rate converted date st.
    cbn [displayResult showResult with_dom dom set_resultDiv_hidden set_spans
           targetCurrencySpan convertedAmountSpan].
    rewrite Hname; split; [reflexivity |].
    rewrite format_other, (symbol_of_unknown_code currency Hcode Hproto);
      [reflexivity | |]; intros ->; apply Hcode; cbn; tauto.
  - intros serie; unfold chart_config.
    cbn [config_dataset_label title_text]; rewrite Hname; split; reflexivity.
Qed.

End WidgetTables.

Section ScriptPage.
Context {P : Platform}.

(** ** The page of [script.js] *)

Lemma forget_with_chart (es : list Script.Event) :
  map forget_chart (map with_chart es) = es.
Proof.
  induction es as [|e es IH]; [reflexivity |].
  cbn [map]; rewrite IH; destruct e; reflexivity.
Qed.

Lemma with_chart_never_throws (es : list Script.Event) :
  chart_never_throws (map with_chart es) = true.
Proof.
  induction es as [|e es IH]; [reflexivity |].
  cbn [map chart_never_throws forallb]; fold (chart_never_throws (map with_chart es)).
  rewrite IH; destruct e; reflexivity.
Qed.

(** Every run of [script.js] is the run of the version with the chart on
    the same events, every chart being made, with the chart taken away. *)
Lemma script_run_is_widget_run (es : list Script.Event) :
  agree_fully (Widget.run (map with_chart es)) (Script.run es).
Proof.
  pose proof (agree_fully_fold (map with_chart es) (with_chart_never_throws es)
                Widget.initial Script.initial) as H.
  rewrite forget_with_chart in H; apply H; repeat split.
Qed.

(** X12.  The page of [script.js] keeps the discipline of the version with
    the chart: at most one conversion is in flight; the loading region is
    shown and the submit control disabled exactly while one is, and then
    the result and error regions are hidden; a visible error region holds
    one of the three messages; a visible result is the result of one
    conversion of an amount above zero. *)
Theorem script_page_follows_the_request :
  forall (es : list Script.Event),
    let s := Script.run es in
    (List.length (Script.pending s) <= 1)%nat /\
    (loadingDiv_hidden (Script.dom s) = false <-> Script.pending s <> []) /\
    (convertBtn_disabled (Script.dom s) = true <-> Script.pending s <> []) /\
    (Script.pending s <> [] ->
       resultDiv_hidden (Script.dom s) = true /\ errorDiv_hidden (Script.dom s) = true) /\
    (errorDiv_hidden (Script.dom s) = false ->
       In (errorDiv_p (Script.dom s))
          [validation_amount; validation_currency; generic_error]) /\
    (resultDiv_hidden (Script.dom s) = false ->
       exists amount currency latest,
         validated (amount, currency) /\
         convertedAmountSpan (Script.dom s)
         = Script.formatConvertedAmount (JS.div amount (valor latest)) currency /\
         exchangeRateSpan (Script.dom s) = Script.formatNumber (valor latest) 0 /\
         originalAmountSpan (Script.dom s) = Script.formatNumber amount 0).
Proof.
  intros es s.
  destruct (script_run_is_widget_run es) as [Hd [Hp _]].
  fold s in Hd, Hp.
  set (w := Widget.run (map with_chart es)) in *.
  pose proof (invariant_reachable w (reachable_run _)) as I.
  pose proof (consistent_run (map with_chart es)) as C; fold w in C.
  rewrite <- Hd, <- Hp.
  assert (Hflight : Widget.pending w <> [] -> in_flight w = true).
  { unfold in_flight; destruct (Widget.pending w); [congruence | reflexivity]. }
  split; [exact (inv_pending w I) |].
  split.
  { rewrite (inv_loading w I); unfold in_flight.
    destruct (Widget.pending w); cbn; split; congruence. }
  split.
  { rewrite (inv_button w I); unfold in_flight.
    destruct (Widget.pending w); split; congruence. }
  split.
  { intros H; apply Hflight in H; split; [apply inv_result | apply inv_error]; assumption. }
  split; [exact (inv_message w I) |].
  intros H.
  destruct (con_result w C H) as [amount [currency [latest [Hv [H1 [_ [H3 [H4 _]]]]]]]].
  exists amount, currency, latest; repeat split; try apply Hv; assumption.
Qed.

End ScriptPage.

Section WidgetRendering.
Context {P : Platform}.

Import Widget.

(** X13.  How the converted amount is rendered for every code but the names
    of the members of Object.prototype: four fraction digits and then the
    unit for [uf] and [utm]; the symbol and then two fraction digits for the
    other codes, [USD] for both kinds of dollar, [EUR] for the euro, and the
    code in upper case for a code that is not one of the five. *)
Theorem rendering_of_the_converted_amount :
  forall (amount : JS.Number),
    formatConvertedAmount amount "uf" = formatNumber amount 4 ++ " UF" /\
    formatConvertedAmount amount "utm" = formatNumber amount 4 ++ " UTM" /\
    formatConvertedAmount amount "dolar" = "USD " ++ formatNumber amount 2 /\
    formatConvertedAmount amount "dolar_intercambio" = "USD " ++ formatNumber amount 2 /\
    formatConvertedAmount amount "euro" = "EUR " ++ formatNumber amount 2 /\
    (forall currency,
       ~ In currency currency_codes -> ~ In currency JS.ObjectPrototype ->
       formatConvertedAmount amount currency
       = toUpperCase currency ++ " " ++ formatNumber amount 2).
Proof.
  intros amount; repeat split.
  intros currency Hcode Hproto.
  rewrite format_other, (symbol_of_unknown_code currency Hcode Hproto);
    [reflexivity | |]; intros ->; apply Hcode; cbn; tauto.
Qed.

End WidgetRendering.

(* ================================================================== *)
(** * The further properties at work                                   *)
(* ================================================================== *)

(** A rate of zero: the hypotheses of X2 hold, and the page shows the
    infinity as the converted amount. *)
Lemma zero_rate_example :
  let latest := {| fecha := "2024-01-03"; valor := S754_zero false |} in
  let st' := Widget.convertCurrency_resume (JS.of_Z 1000) "dolar"
               (Response 200 (Json (Some [latest]))) false Example.filled in
  JS.ltb JS.zero (JS.of_Z 1000) = true /\
  Widget.calculateConversion (JS.of_Z 1000) (valor latest) "dolar" = JS.Infinity /\
  convertedAmountSpan (Widget.dom st') = "USD ∞" /\
  resultDiv_hidden (Widget.dom st') = false /\
  Widget.console st' = [].
Proof.
  cbv zeta.
  split; [reflexivity |].
  destruct (zero_rate_gives_infinity (JS.of_Z 1000) "dolar"
              {| fecha := "2024-01-03"; valor := S754_zero false |} []
              200%nat false Example.filled eq_refl eq_refl eq_refl)
    as [Hdiv [Hspan [Hshown [_ Hconsole]]]].
  split; [exact Hdiv |].
  split; [rewrite Hspan; vm_compute; reflexivity |].
  split; [exact Hshown | rewrite Hconsole; vm_compute; reflexivity].
Defined.

(** A code that is not in the tables: the hypotheses of X10 hold of [yen],
    whose name field stays empty while its symbol is [YEN]. *)
Lemma unknown_code_example :
  let st := Widget.displayResult (JS.of_Z 1000) "yen" (JS.of_Z 7) (JS.of_Z 143)
              "03-01-2024" Example.filled in
  targetCurrencySpan (Widget.dom st) = "" /\
  convertedAmountSpan (Widget.dom st) = "YEN 143,00" /\
  Widget.config_dataset_label (Widget.chart_config "yen" Example.serie)
  = "Valor en CLP - undefined".
Proof.
  cbv zeta.
  assert (Hcode : ~ In "yen" currency_codes).
  { cbn; intros H; repeat (destruct H as [H | H]; [discriminate |]); exact H. }
  assert (Hproto : ~ In "yen" JS.ObjectPrototype).
  { cbn; intros H; repeat (destruct H as [H | H]; [discriminate |]); exact H. }
  destruct (unknown_code_has_no_name "yen" Hcode Hproto) as [Hdisplay Hconfig].
  destruct (Hdisplay (JS.of_Z 1000) (JS.of_Z 7) (JS.of_Z 143) "03-01-2024"
              Example.filled) as [Hname Hsymbol].
  split; [exact Hname |].
  split; [rewrite Hsymbol; vm_compute; reflexivity |].
  exact (proj1 (Hconfig Example.serie)).
Defined.
